(** * Verification of the resource-aggregation and stream-bridge core of
    be-managed-k3s

    Shallow embedding of the JavaScript services:
    - src/services/pod.service.js (getPodMetrics, getAllPods)
    - src/services/pod/pod.metrics.js, pod/pod.transformer.js
    - src/services/node.service.js (getNodeMetrics, getAllNodes)
    - namespace service (getAllNamespaces)
    - pod interaction (connectToPodTerminal, streamPodLogs)

    JavaScript numbers are modelled as exact rationals extended with NaN and
    the two infinities; strings are Stdlib strings over ASCII.  A JS object
    used as a dictionary is an association list of its own properties,
    backed by the members of Object.prototype for keys it does not own. *)

From Stdlib Require Import ZArith QArith Qround Qabs String Ascii List Bool Lia.
Import ListNotations.
Open Scope string_scope.

(* ------------------------------------------------------------------ *)
(** ** JavaScript values *)

Module Js.

(** A JS number: a finite value, NaN, or an infinity ([neg] = negative). *)
Inductive num :=
| Fin (q : Q)
| NaN
| Inf (neg : bool).

Definition fin (q : Q) : num := Fin (Qred q).

Definition add (x y : num) : num :=
  match x, y with
  | Fin a, Fin b => fin (a + b)
  | NaN, _ | _, NaN => NaN
  | Inf p, Fin _ => Inf p
  | Fin _, Inf p => Inf p
  | Inf p, Inf q => if Bool.eqb p q then Inf p else NaN
  end.

Definition mul (x y : num) : num :=
  match x, y with
  | Fin a, Fin b => fin (a * b)
  | NaN, _ | _, NaN => NaN
  | Inf p, Fin b | Fin b, Inf p =>
      if Qeq_bool b 0 then NaN else Inf (xorb p (negb (Qle_bool 0 b)))
  | Inf p, Inf q => Inf (xorb p q)
  end.

(** Division by a positive constant, the only division the code performs. *)
Definition div_pos (x : num) (d : positive) : num :=
  match x with
  | Fin a => fin (a / Qmake (Zpos d) 1)
  | v => v
  end.

(** [x || 0]: the falsy numbers (0, -0, NaN) become 0. *)
Definition or0 (x : num) : num :=
  match x with
  | Fin q => if Qeq_bool q 0 then fin 0 else Fin q
  | NaN => fin 0
  | v => v
  end.

(** [Number.prototype.toFixed(k)] on the exact value x of a double: the
    integer n closest to x * 10^k, the larger one on a tie, with the sign
    put back in front. *)
Definition round_fixed (k : nat) (q : Q) : Q :=
  let a := Qnum q in
  let b := Zpos (Qden q) in
  let scale := (10 ^ Z.of_nat k)%Z in
  let n := ((2 * scale * Z.abs a + b) / (2 * b))%Z in
  Qmake (Z.sgn a * n) (Z.to_pos scale).

(** [a / b >= 2^l] for positive [a], [b]. *)
Definition ge_pow2 (a b l : Z) : bool :=
  if (0 <=? l)%Z then (b * 2 ^ l <=? a)%Z else (b <=? a * 2 ^ (- l))%Z.

(** [n / d] rounded to the nearest integer, ties to even ([d > 0]). *)
Definition round_half_even (n d : Z) : Z :=
  let q := (n / d)%Z in
  let r := (n mod d)%Z in
  if (2 * r <? d)%Z then q
  else if (d <? 2 * r)%Z then (q + 1)%Z
  else if Z.even q then q else (q + 1)%Z.

(** The IEEE-754 binary64 number nearest to a rational in the finite range
    (53-bit significand, subnormals down to 2^-1074, ties to even): the value
    a JS number holds after a division. *)
Definition to_double (x : Q) : Q :=
  let x := Qred x in
  let a := Z.abs (Qnum x) in
  let b := Zpos (Qden x) in
  if (a =? 0)%Z then 0 else
  let l := (Z.log2 a - Z.log2 b)%Z in
  let t := if ge_pow2 a b l then l else (l - 1)%Z in
  let e := Z.max (t - 52) (-1074) in
  let m := if (0 <=? e)%Z then round_half_even a (b * 2 ^ e)
           else round_half_even (a * 2 ^ (- e)) b in
  if (0 <=? e)%Z then inject_Z (Z.sgn (Qnum x) * m * 2 ^ e)
  else Qmake (Z.sgn (Qnum x) * m) (Z.to_pos (2 ^ (- e))).

(** [parseFloat(x.toFixed(k))]: [toFixed] reads the binary64 value of its
    argument (the double nearest the exact value carried here) and rounds
    that value to k decimals; [parseFloat] reads the digits back. *)
Definition to_fixed_num (k : nat) (x : num) : num :=
  match x with
  | Fin q => fin (round_fixed k (to_double q))
  | v => v
  end.

(** [Math.round]: floor (x + 1/2). *)
Definition math_round (x : num) : num :=
  match x with
  | Fin q => fin (inject_Z (Qfloor (q + (1 # 2))))
  | v => v
  end.

(** Values stored in a record field that holds either a number or a string
    passed through unparsed. *)
Inductive jsval :=
| VNum (n : num)
| VStr (s : string).

(** JS string truthiness: only the empty string is falsy. *)
Definition str_truthy (s : string) : bool :=
  negb (String.eqb s "").

(** [o?.f || d] for an optional string field. *)
Definition or_default (o : option string) (d : string) : string :=
  match o with
  | Some s => if str_truthy s then s else d
  | None => d
  end.

(** Template-literal rendering of an optional string ([undefined]). *)
Definition show_opt (o : option string) : string :=
  match o with
  | Some s => s
  | None => "undefined"
  end.

(* -------- strings -------- *)

Definition ends_with (suf s : string) : bool :=
  let n := String.length s in
  let m := String.length suf in
  (m <=? n)%nat && String.eqb (substring (n - m) m s) suf.

(** [s.slice(0, -k)]. *)
Definition slice_drop_end (k : nat) (s : string) : string :=
  substring 0 (String.length s - k) s.

Definition is_ws (c : ascii) : bool :=
  let n := nat_of_ascii c in
  ((9 <=? n) && (n <=? 13))%nat || (n =? 32)%nat.

Fixpoint trim_start (s : string) : string :=
  match s with
  | String c r => if is_ws c then trim_start r else s
  | EmptyString => EmptyString
  end.

Definition digit_val (hex : bool) (c : ascii) : option Z :=
  let n := Z.of_nat (nat_of_ascii c) in
  if ((48 <=? n) && (n <=? 57))%Z then Some (n - 48)%Z
  else if negb hex then None
  else if ((97 <=? n) && (n <=? 102))%Z then Some (n - 87)%Z
  else if ((65 <=? n) && (n <=? 70))%Z then Some (n - 55)%Z
  else None.

(** Longest digit prefix: its value, its length and the rest. *)
Fixpoint digits (hex : bool) (s : string) (acc : Z) (cnt : nat)
  : Z * nat * string :=
  match s with
  | String c r =>
      match digit_val hex c with
      | Some d => digits hex r ((if hex then 16 else 10) * acc + d)%Z (S cnt)
      | None => (acc, cnt, s)
      end
  | EmptyString => (acc, cnt, s)
  end.

(** Optional leading sign: the multiplier and the rest. *)
Definition sign (s : string) : Z * string :=
  match s with
  | String "-"%char r => ((-1)%Z, r)
  | String "+"%char r => (1%Z, r)
  | _ => (1%Z, s)
  end.

(** [parseInt(s)] with no radix. *)
Definition parseInt (s : string) : num :=
  let '(sg, r) := sign (trim_start s) in
  let '(hex, r') :=
    match r with
    | String "0"%char (String "x"%char t) | String "0"%char (String "X"%char t) => (true, t)
    | _ => (false, r)
    end in
  let '(v, cnt, _) := digits hex r' 0%Z 0 in
  if (cnt =? 0)%nat then NaN else fin (inject_Z (sg * v)).

(** Optional exponent part [e[+-]digits] of a decimal literal. *)
Definition exponent (s : string) : Z :=
  match s with
  | String c r =>
      if (c =? "e")%char || (c =? "E")%char then
        let '(sg, r') := sign r in
        let '(v, cnt, _) := digits false r' 0%Z 0 in
        if (cnt =? 0)%nat then 0%Z else (sg * v)%Z
      else 0%Z
  | EmptyString => 0%Z
  end.

Definition pow10 (e : Z) : Q :=
  if (0 <=? e)%Z then inject_Z (10 ^ e) else Qmake 1 (Z.to_pos (10 ^ (- e))).

(** [parseFloat(s)]: the longest prefix that is a decimal literal or
    [Infinity]. *)
Definition parseFloat (s : string) : num :=
  let '(sg, r) := sign (trim_start s) in
  if String.prefix "Infinity" r then Inf (sg <? 0)%Z else
  let '(ip, ic, r1) := digits false r 0%Z 0 in
  let '(fp, fc, r2) :=
    match r1 with
    | String "."%char t => digits false t 0%Z 0
    | _ => (0%Z, 0%nat, r1)
    end in
  if ((ic + fc) =? 0)%nat then NaN
  else
    let m := (ip * 10 ^ Z.of_nat fc + fp)%Z in
    fin (Qmake (sg * m) (Z.to_pos (10 ^ Z.of_nat fc)) * pow10 (exponent r2)).

End Js.

Import Js.


(* ------------------------------------------------------------------ *)
(** ** Plain JS objects used as dictionaries *)

Module Obj.

Definition obj (A : Type) := list (string * A).

(** [o[k] = v]: overwrite in place, or append a new own property. *)
Fixpoint set {A} (k : string) (v : A) (o : obj A) : obj A :=
  match o with
  | [] => [(k, v)]
  | (k', v') :: r => if String.eqb k k' then (k, v) :: r else (k', v') :: set k v r
  end.

(** What [o[k]] reads: an own property, an inherited member of
    Object.prototype (a function or the prototype object, always truthy),
    or [undefined]. *)
Inductive slot (A : Type) :=
| Own (a : A)
| Proto (member : string)
| Undef.
Arguments Own {A} a.
Arguments Proto {A} member.
Arguments Undef {A}.

Definition proto_members : list string :=
  ["constructor"; "__proto__"; "hasOwnProperty"; "isPrototypeOf";
   "propertyIsEnumerable"; "toLocaleString"; "toString"; "valueOf";
   "__defineGetter__"; "__defineSetter__"; "__lookupGetter__";
   "__lookupSetter__"].

Fixpoint own {A} (k : string) (o : obj A) : option A :=
  match o with
  | [] => None
  | (k', v) :: r => if String.eqb k k' then Some v else own k r
  end.

Definition get {A} (k : string) (o : obj A) : slot A :=
  match own k o with
  | Some v => Own v
  | None => if existsb (String.eqb k) proto_members then Proto k else Undef
  end.

End Obj.

Import Obj.

(* ------------------------------------------------------------------ *)
(** ** Unit normalisation and the metrics joiners *)

Module Metrics.

(** Per-container CPU conversion of getPodMetrics:
    [cpuUsage.endsWith("n") ? parseFloat((parseInt(cpuUsage.slice(0, -1)) / 1000000).toFixed(2))
                           : parseFloat(cpuUsage) || 0]. *)
Definition pod_cpu_millicores (cpuUsage : string) : num :=
  if ends_with "n" cpuUsage
  then to_fixed_num 2 (div_pos (parseInt (slice_drop_end 1 cpuUsage)) 1000000)
  else or0 (parseFloat cpuUsage).

(** Per-container memory conversion of getPodMetrics:
    [memoryUsage.endsWith("Ki") ? parseInt(memoryUsage.slice(0, -2)) * 1024
                               : parseInt(memoryUsage) || 0]. *)
Definition pod_memory_bytes (memoryUsage : string) : num :=
  if ends_with "Ki" memoryUsage
  then mul (parseInt (slice_drop_end 2 memoryUsage)) (fin 1024)
  else or0 (parseInt memoryUsage).

(** CPU conversion of getNodeMetrics:
    [cpuUsage.endsWith("n") ? Math.round(parseInt(cpuUsage.slice(0, -1)) / 1000000) : cpuUsage]. *)
Definition node_cpu_millicores (cpuUsage : string) : jsval :=
  if ends_with "n" cpuUsage
  then VNum (math_round (div_pos (parseInt (slice_drop_end 1 cpuUsage)) 1000000))
  else VStr cpuUsage.

(** Memory conversion of getNodeMetrics:
    [memoryUsage.endsWith("Ki") ? parseInt(memoryUsage.slice(0, -2)) * 1024 : memoryUsage]. *)
Definition node_memory_bytes (memoryUsage : string) : jsval :=
  if ends_with "Ki" memoryUsage
  then VNum (mul (parseInt (slice_drop_end 2 memoryUsage)) (fin 1024))
  else VStr memoryUsage.

(** Shapes of the metrics API listings. *)
Record usage := { u_cpu : option string; u_memory : option string }.

Record container_metric := { cm_usage : option usage }.

Record pod_metric := {
  pm_name : option string;
  pm_namespace : option string;
  pm_timestamp : option string;
  pm_window : option string;
  pm_containers : option (list container_metric) }.

Record node_metric := {
  nm_name : option string;
  nm_timestamp : option string;
  nm_window : option string;
  nm_usage : option usage }.

(** The [items] field of a listing: falsy, a truthy non-array (on which
    [forEach] throws a TypeError), or an array. *)
Inductive js_list (A : Type) :=
| LAbsent
| LNotArray
| LArray (l : list A).
Arguments LAbsent {A}.
Arguments LNotArray {A}.
Arguments LArray {A} l.

(** An awaited API call: it rejects or resolves to a value. *)
Inductive fetch (A : Type) :=
| Rejects (msg : string)
| Resolves (a : A).
Arguments Rejects {A} msg.
Arguments Resolves {A} a.

(** [podMetrics]: [null]/[undefined] or an object with [items]. *)
Definition metrics_response (A : Type) := option (js_list A).

Record pod_sample := {
  s_timestamp : option string;
  s_window : option string;
  cpu_raw : string;
  cpu_millicores : num;
  cpu_cores : num;
  mem_raw : string;
  mem_bytes : num;
  mem_megabytes : num;
  mem_gigabytes : num }.

Definition cpu_of (c : container_metric) : string :=
  or_default (match cm_usage c with Some u => u_cpu u | None => None end) "0".
Definition memory_of (c : container_metric) : string :=
  or_default (match cm_usage c with Some u => u_memory u | None => None end) "0".

(** Loop state: totalCpuUsage, totalMemoryUsage, cpuUsageRaw, memoryUsageRaw. *)
Record acc := { totalCpu : num; totalMem : num; cpuRaw : string; memRaw : string }.

Definition acc0 : acc := {| totalCpu := fin 0; totalMem := fin 0; cpuRaw := ""; memRaw := "" |}.

(** One iteration of [podMetric.containers.forEach]. *)
Definition container_step (a : acc) (c : container_metric) : acc :=
  let cpuUsage := cpu_of c in
  let memoryUsage := memory_of c in
  let '(cr, mr) :=
    if negb (str_truthy (cpuRaw a)) then (cpuUsage, memoryUsage)
    else (cpuRaw a, memRaw a) in
  {| totalCpu := add (totalCpu a) (pod_cpu_millicores cpuUsage);
     totalMem := add (totalMem a) (pod_memory_bytes memoryUsage);
     cpuRaw := cr; memRaw := mr |}.

Definition pod_sample_of (pm : pod_metric) : pod_sample :=
  let a := match pm_containers pm with
           | Some cs => fold_left container_step cs acc0
           | None => acc0
           end in
  {| s_timestamp := pm_timestamp pm;
     s_window := pm_window pm;
     cpu_raw := if str_truthy (cpuRaw a) then cpuRaw a else "0n";
     cpu_millicores := to_fixed_num 2 (totalCpu a);
     cpu_cores := to_fixed_num 2 (div_pos (totalCpu a) 1000);
     mem_raw := if str_truthy (memRaw a) then memRaw a else "0Ki";
     mem_bytes := totalMem a;
     mem_megabytes := to_fixed_num 1 (div_pos (totalMem a) 1048576);
     mem_gigabytes := to_fixed_num 1 (div_pos (totalMem a) 1073741824) |}.

(** One iteration of [podMetrics.items.forEach]. *)
Definition pod_item_step (m : obj pod_sample) (pm : pod_metric) : obj pod_sample :=
  match pm_name pm, pm_namespace pm with
  | Some podName, Some podNamespace =>
      if str_truthy podName && str_truthy podNamespace
      then set (podNamespace ++ "/" ++ podName) (pod_sample_of pm) m
      else m
  | _, _ => m
  end.

(** getPodMetrics: every rejection and every thrown TypeError is caught and
    yields the empty map. *)
Definition getPodMetrics (r : fetch (metrics_response pod_metric)) : obj pod_sample :=
  match r with
  | Rejects _ => []
  | Resolves None => []
  | Resolves (Some LAbsent) => []
  | Resolves (Some LNotArray) => []
  | Resolves (Some (LArray l)) => fold_left pod_item_step l []
  end.

End Metrics.

Import Metrics.

Definition cm (cpu mem : string) : container_metric :=
  {| cm_usage := Some {| u_cpu := Some cpu; u_memory := Some mem |} |}.


(* ------------------------------------------------------------------ *)
(** ** Outcomes of the Kubernetes client calls *)

Module Api.

(** [x === s] for an optional string field. *)
Definition opt_is (o : option string) (s : string) : bool :=
  match o with Some x => String.eqb x s | None => false end.

(** A rejected client call: [error.code], [error.statusCode], [error.message]. *)
Record api_error := {
  e_code : option string;
  e_statusCode : option Z;
  e_message : string }.

(** [new Error(msg)] thrown by the code itself. *)
Definition plain_error (msg : string) : api_error :=
  {| e_code := None; e_statusCode := None; e_message := msg |}.

(** An awaited client call that rejects with an error object or resolves. *)
Inductive call (A : Type) :=
| Fails (e : api_error)
| Returns (a : A).
Arguments Fails {A} e.
Arguments Returns {A} a.

(** [error.code === "ECONNREFUSED" || error.code === "ENOTFOUND"]. *)
Definition is_conn_error (e : api_error) : bool :=
  opt_is (e_code e) "ECONNREFUSED" || opt_is (e_code e) "ENOTFOUND".

(** [error.statusCode === 404]. *)
Definition is_404 (e : api_error) : bool :=
  match e_statusCode e with Some z => Z.eqb z 404 | None => false end.

Definition cannot_connect : string :=
  "Cannot connect to Kubernetes cluster. Please check your kubeconfig and cluster status.".

(** The catch block of getAllNodes and getAllNamespaces:
    a connection error becomes the cannot-connect message, anything else
    [Failed to fetch <what>: <message>]. *)
Definition listing_error (what : string) (e : api_error) : string :=
  if is_conn_error e then cannot_connect
  else "Failed to fetch " ++ what ++ ": " ++ e_message e.

End Api.

Import Api.

(* ------------------------------------------------------------------ *)
(** ** Pod transformation (transformPodData / the map body of getAllPods) *)

Module Pods.

Record resource_list := { rl_cpu : option string; rl_memory : option string }.
Record resources := { r_requests : option resource_list; r_limits : option resource_list }.
Record container := { c_name : option string; c_resources : option resources }.
Record condition := { cond_type : option string; cond_status : option string }.

Record pod := {
  p_name : option string;
  p_namespace : option string;
  p_phase : option string;
  p_conditions : option (list condition);
  p_nodeName : option string;
  p_containers : option (list container) }.

Record res_out := { o_cpu : string; o_memory : string }.

(** The [metrics] field: [podMetricsMap[metricsKey] || null]. *)
Inductive metrics_field :=
| MNull
| MSample (s : pod_sample)
| MProto (member : string).

Record pod_out := {
  o_name : option string;
  o_namespace : option string;
  o_phase : string;
  o_ready : bool;
  o_nodeName : option string;
  o_requests : res_out;
  o_limits : res_out;
  o_metrics : metrics_field }.


(** [conditions.find((c) => c.type === "Ready")?.status === "True"]. *)
Definition isReady (conditions : list condition) : bool :=
  match find (fun c => opt_is (cond_type c) "Ready") conditions with
  | Some c => opt_is (cond_status c) "True"
  | None => false
  end.

(** The body of [if (container.resources?.requests) { if (...cpu) ...; if (...memory) ... }]. *)
Definition apply_list (r : res_out) (rl : option resource_list) : res_out :=
  match rl with
  | None => r
  | Some l =>
      let r1 := match rl_cpu l with
                | Some v => if str_truthy v then {| o_cpu := v; o_memory := o_memory r |} else r
                | None => r
                end in
      match rl_memory l with
      | Some v => if str_truthy v then {| o_cpu := o_cpu r1; o_memory := v |} else r1
      | None => r1
      end
  end.

Definition res_zero : res_out := {| o_cpu := "0"; o_memory := "0" |}.

(** One iteration of [pod.spec.containers.forEach] over (resourceRequests, resourceLimits). *)
Definition resource_step (st : res_out * res_out) (c : container) : res_out * res_out :=
  let '(req, lim) := st in
  match c_resources c with
  | Some r => (apply_list req (r_requests r), apply_list lim (r_limits r))
  | None => (req, lim)
  end.

Definition resource_totals (p : pod) : res_out * res_out :=
  match p_containers p with
  | Some cs => fold_left resource_step cs (res_zero, res_zero)
  | None => (res_zero, res_zero)
  end.

Definition metrics_key (p : pod) : string :=
  show_opt (p_namespace p) ++ "/" ++ show_opt (p_name p).

Definition lookup_metrics (key : string) (m : obj pod_sample) : metrics_field :=
  match get key m with
  | Own s => MSample s
  | Proto f => MProto f
  | Undef => MNull
  end.

Definition transformPodData (p : pod) (podMetricsMap : obj pod_sample) : pod_out :=
  let conditions := match p_conditions p with Some l => l | None => [] end in
  let '(req, lim) := resource_totals p in
  {| o_name := p_name p;
     o_namespace := p_namespace p;
     o_phase := or_default (p_phase p) "Unknown";
     o_ready := isReady conditions;
     o_nodeName := p_nodeName p;
     o_requests := req;
     o_limits := lim;
     o_metrics := lookup_metrics (metrics_key p) podMetricsMap |}.

Inductive result (A : Type) :=
| Ok (a : A)
| Err (msg : string).
Arguments Ok {A} a.
Arguments Err {A} msg.

(** The catch block of getAllPods(namespace = null): a connection error,
    then a 404 for a truthy namespace, then [Failed to fetch pods: ...]. *)
Definition pods_error (namespace : option string) (e : api_error) : string :=
  if is_conn_error e then cannot_connect
  else if is_404 e && match namespace with Some n => str_truthy n | None => false end
  then "Namespace '" ++ show_opt namespace ++ "' not found"
  else "Failed to fetch pods: " ++ e_message e.

(** getAllPods(namespace): [listing] is the outcome of the listing call the
    code makes for [namespace] (listNamespacedPod for a truthy namespace,
    listPodForAllNamespaces otherwise); it must resolve to an array of
    items, and the metrics fetch is best effort. *)
Definition getAllPods (namespace : option string) (listing : call (js_list pod))
    (metrics : fetch (metrics_response pod_metric)) : result (list pod_out) :=
  match listing with
  | Fails e => Err (pods_error namespace e)
  | Returns (LArray items) =>
      let podMetricsMap := getPodMetrics metrics in
      Ok (map (fun p => transformPodData p podMetricsMap) items)
  | Returns _ =>
      Err (pods_error namespace (plain_error "No pods found in cluster or invalid response format"))
  end.

End Pods.

Import Pods.

Definition rl (cpu mem : option string) : resource_list := {| rl_cpu := cpu; rl_memory := mem |}.
Definition ctr (req lim : option resource_list) : container :=
  {| c_name := None; c_resources := Some {| r_requests := req; r_limits := lim |} |}.
Definition mkpod (conds : list condition) (cs : list container) : pod :=
  {| p_name := Some "web-1"; p_namespace := Some "default"; p_phase := Some "Running";
     p_conditions := Some conds; p_nodeName := None; p_containers := Some cs |}.


(* ------------------------------------------------------------------ *)
(** ** Aggregate counters of getAllNodes and getAllNamespaces *)

Module Counts.

Record phase_counts := {
  total : Z; running : Z; pending : Z; failed : Z; succeeded : Z }.

Definition counts0 : phase_counts :=
  {| total := 0; running := 0; pending := 0; failed := 0; succeeded := 0 |}.

(** [.total++] followed by the phase switch. *)
Definition bump (phase : option string) (c : phase_counts) : phase_counts :=
  let t := (total c + 1)%Z in
  if opt_is phase "Running" then
    {| total := t; running := running c + 1; pending := pending c; failed := failed c; succeeded := succeeded c |}
  else if opt_is phase "Pending" then
    {| total := t; running := running c; pending := pending c + 1; failed := failed c; succeeded := succeeded c |}
  else if opt_is phase "Failed" then
    {| total := t; running := running c; pending := pending c; failed := failed c + 1; succeeded := succeeded c |}
  else if opt_is phase "Succeeded" then
    {| total := t; running := running c; pending := pending c; failed := failed c; succeeded := succeeded c + 1 |}
  else
    {| total := t; running := running c; pending := pending c; failed := failed c; succeeded := succeeded c |}.

(** One iteration of [podsData.items.forEach]:
    [if (key) { if (!m[key]) m[key] = {...0}; m[key].total++; ... }].
    When [m[key]] is an inherited member of Object.prototype it is truthy,
    no own entry is created and the increments land on that member. *)
Definition count_step (key : pod -> option string) (m : obj phase_counts) (p : pod)
  : obj phase_counts :=
  match key p with
  | Some k =>
      if str_truthy k then
        let m1 := match get k m with Undef => set k counts0 m | _ => m end in
        match get k m1 with
        | Own c => set k (bump (p_phase p) c) m1
        | _ => m1
        end
      else m
  | None => m
  end.

(** The guarded pod-listing block: a rejected call or a non-array [items]
    (TypeError from [forEach]) leaves the map empty. *)
Definition count_pods (key : pod -> option string) (pods : fetch (js_list pod))
  : obj phase_counts :=
  match pods with
  | Resolves (LArray l) => fold_left (count_step key) l []
  | _ => []
  end.

Definition node_key (p : pod) : option string := p_nodeName p.
Definition namespace_key (p : pod) : option string := p_namespace p.

(** The [pods] field: [m[name] || {total: 0, ...}]. *)
Inductive pods_field :=
| PCounts (c : phase_counts)
| PProto (member : string).

Definition pods_of (name : option string) (m : obj phase_counts) : pods_field :=
  match get (show_opt name) m with
  | Own c => PCounts c
  | Proto f => PProto f
  | Undef => PCounts counts0
  end.

Definition sum_totals (m : obj phase_counts) : Z :=
  fold_right (fun kv s => (total (snd kv) + s)%Z) 0%Z m.

Definition has_key (key : pod -> option string) (p : pod) : bool :=
  match key p with Some k => str_truthy k | None => false end.

End Counts.

Import Counts.

Module Nodes.

Record node := { n_name : option string }.

Record node_sample := {
  ns_timestamp : option string;
  ns_window : option string;
  ns_cpu_raw : string;
  ns_millicores : jsval;
  ns_mem_raw : string;
  ns_bytes : jsval }.

(** One iteration of getNodeMetrics' [forEach] (the derived display fields
    cores/megabytes/gigabytes are not modelled). *)
Definition node_item_step (m : obj node_sample) (nm : node_metric) : obj node_sample :=
  match nm_name nm with
  | Some nodeName =>
      if str_truthy nodeName then
        let u_cpu' := match nm_usage nm with Some u => u_cpu u | None => None end in
        let u_mem' := match nm_usage nm with Some u => u_memory u | None => None end in
        let cpuUsage := or_default u_cpu' "0" in
        let memoryUsage := or_default u_mem' "0" in
        set nodeName
          {| ns_timestamp := nm_timestamp nm; ns_window := nm_window nm;
             ns_cpu_raw := cpuUsage; ns_millicores := node_cpu_millicores cpuUsage;
             ns_mem_raw := memoryUsage; ns_bytes := node_memory_bytes memoryUsage |} m
      else m
  | None => m
  end.

Definition getNodeMetrics (r : fetch (metrics_response node_metric)) : obj node_sample :=
  match r with
  | Resolves (Some (LArray l)) => fold_left node_item_step l []
  | _ => []
  end.

Inductive node_metrics_field :=
| NMNull
| NMSample (s : node_sample)
| NMProto (member : string).

Record node_out := {
  no_name : option string;
  no_pods : pods_field;
  no_metrics : node_metrics_field }.

Definition getAllNodes (listing : call (js_list node))
    (metrics : fetch (metrics_response node_metric)) (pods : fetch (js_list pod))
  : result (list node_out) :=
  match listing with
  | Fails e => Err (listing_error "nodes" e)
  | Returns (LArray items) =>
      let nodeMetricsMap := getNodeMetrics metrics in
      let podsByNode := count_pods node_key pods in
      Ok (map (fun n =>
        {| no_name := n_name n;
           no_pods := pods_of (n_name n) podsByNode;
           no_metrics :=
             match get (show_opt (n_name n)) nodeMetricsMap with
             | Own s => NMSample s
             | Proto f => NMProto f
             | Undef => NMNull
             end |}) items)
  | Returns _ =>
      Err (listing_error "nodes" (plain_error "No nodes found in cluster or invalid response format"))
  end.

End Nodes.

Module Namespaces.

Record namespace := { ns_name : option string; ns_phase : option string }.

Record namespace_out := {
  nso_name : option string;
  nso_status : string;
  nso_pods : pods_field }.

Definition getAllNamespaces (listing : call (js_list namespace)) (pods : fetch (js_list pod))
  : result (list namespace_out) :=
  match listing with
  | Fails e => Err (listing_error "namespaces" e)
  | Returns (LArray items) =>
      let podsByNamespace := count_pods namespace_key pods in
      Ok (map (fun n =>
        {| nso_name := ns_name n;
           nso_status := or_default (ns_phase n) "Active";
           nso_pods := pods_of (ns_name n) podsByNamespace |}) items)
  | Returns _ =>
      Err (listing_error "namespaces"
             (plain_error "No namespaces found in cluster or invalid response format"))
  end.

End Namespaces.

Import Nodes Namespaces.

(* ------------------------------------------------------------------ *)
(** ** Interactive stream bridge (connectToPodTerminal, streamPodLogs) *)

Module Bridge.

(** [WebSocket.readyState]. *)
Inductive ready_state := CONNECTING | OPEN | CLOSING | CLOSED.

Definition rs_eqb (a b : ready_state) : bool :=
  match a, b with
  | CONNECTING, CONNECTING | OPEN, OPEN | CLOSING, CLOSING | CLOSED, CLOSED => true
  | _, _ => false
  end.

(** Calls made on the client WebSocket. *)
Inductive ws_call :=
| WsSend (data : string)
| WsClose (code : option Z) (reason : option string).

(** Calls made towards the cluster. *)
Inductive remote_call :=
| ReadPod (name : string)
| ExecOpen (container : option string) (command : list string)
| LogOpen (container : option string)
| StdinWrite (data : string)
| StdinEnd
| StdoutDestroy
| StderrDestroy
| LogStreamEnd
| LogAbort.

(** Each client call is recorded with the readyState at the moment it is made. *)
Record world := {
  ws : ready_state;
  calls : list (ready_state * ws_call);
  remote : list remote_call;
  stdin_writable : bool;
  stdout_readable : bool;
  stderr_readable : bool }.

Definition set_ws (rs : ready_state) (w : world) : world :=
  {| ws := rs; calls := calls w; remote := remote w; stdin_writable := stdin_writable w;
     stdout_readable := stdout_readable w; stderr_readable := stderr_readable w |}.

Definition emit (rc : remote_call) (w : world) : world :=
  {| ws := ws w; calls := calls w; remote := remote w ++ [rc]; stdin_writable := stdin_writable w;
     stdout_readable := stdout_readable w; stderr_readable := stderr_readable w |}.

Definition ws_send (d : string) (w : world) : world :=
  {| ws := ws w; calls := calls w ++ [(ws w, WsSend d)]; remote := remote w;
     stdin_writable := stdin_writable w; stdout_readable := stdout_readable w;
     stderr_readable := stderr_readable w |}.

(** [clientWs.close(...)]: an open socket starts its closing handshake. *)
Definition ws_close (code : option Z) (reason : option string) (w : world) : world :=
  {| ws := if rs_eqb (ws w) OPEN then CLOSING else ws w;
     calls := calls w ++ [(ws w, WsClose code reason)]; remote := remote w;
     stdin_writable := stdin_writable w; stdout_readable := stdout_readable w;
     stderr_readable := stderr_readable w |}.

(** [if (clientWs.readyState === clientWs.OPEN) { ... }]. *)
Definition when_open (f : world -> world) (w : world) : world :=
  if rs_eqb (ws w) OPEN then f w else w.

Definition stdin_end (w : world) : world :=
  if stdin_writable w then
    {| ws := ws w; calls := calls w; remote := remote w ++ [StdinEnd]; stdin_writable := false;
       stdout_readable := stdout_readable w; stderr_readable := stderr_readable w |}
  else w.

Definition stdout_destroy (w : world) : world :=
  if stdout_readable w then
    {| ws := ws w; calls := calls w; remote := remote w ++ [StdoutDestroy];
       stdin_writable := stdin_writable w; stdout_readable := false;
       stderr_readable := stderr_readable w |}
  else w.

Definition stderr_destroy (w : world) : world :=
  if stderr_readable w then
    {| ws := ws w; calls := calls w; remote := remote w ++ [StderrDestroy];
       stdin_writable := stdin_writable w; stdout_readable := stdout_readable w;
       stderr_readable := false |}
  else w.

(** [k8sApi.readNamespacedPod] response: [pod.body.spec.containers]. *)
Record spec_obj := { sp_containers : option (list container) }.
Record body_obj := { b_spec : option spec_obj }.
Record pod_resp := { body : option body_obj }.

(** Container resolution, shared by both sessions:
    [if (pod.body.spec.containers && pod.body.spec.containers.length > 0)
       targetContainer = pod.body.spec.containers[0].name;
     else throw new Error(`No containers found in pod: ${podName}`)]. *)
Definition resolve_container (podName : string) (r : fetch pod_resp) : result (option string) :=
  match r with
  | Rejects m => Err m
  | Resolves resp =>
      match body resp with
      | None => Err "Cannot read properties of undefined (reading 'spec')"
      | Some b =>
          match b_spec b with
          | None => Err "Cannot read properties of undefined (reading 'containers')"
          | Some sp =>
              match sp_containers sp with
              | Some (c :: _) => Ok (c_name c)
              | _ => Err ("No containers found in pod: " ++ podName)
              end
          end
      end
  end.

(** Where a session is. *)
Inductive phase :=
| TermAwaitRead      (* awaiting readNamespacedPod in connectToPodTerminal *)
| TermAwaitExec      (* awaiting exec.exec *)
| TermRelay          (* handlers of connectToPodTerminal installed *)
| LogAwaitRead       (* awaiting readNamespacedPod in streamPodLogs *)
| LogRelay           (* handlers of streamPodLogs installed *)
| Finished.          (* the setup failed; nothing is installed *)

Record session := { sw : world; ph : phase; podName : string; command : list string }.

(** Things that can happen while a session runs.  [EvWsState] is the client
    side changing the socket's readyState (it closes, the network drops). *)
Inductive event :=
| EvWsState (rs : ready_state)
| EvReadDone (r : fetch pod_resp)
| EvExecDone (r : fetch unit)
| EvStdoutData (d : string)
| EvStderrData (d : string)
| EvStdoutError
| EvStderrError
| EvStdinError
| EvExit
| EvClientMessage (d : string)
| EvClientClose
| EvClientError
| EvLogData (d : string)
| EvLogStreamError
| EvLogDone
| EvLogReject (msg : string).


Definition with_world (s : session) (w : world) (p : phase) : session :=
  {| sw := w; ph := p; podName := podName s; command := command s |}.

(** [exec.exec(...)] is called with fresh stdout/stderr/stdin PassThroughs. *)
Definition open_exec (c : option string) (cmd : list string) (w : world) : world :=
  let w' := emit (ExecOpen c cmd) w in
  {| ws := ws w'; calls := calls w'; remote := remote w'; stdin_writable := true;
     stdout_readable := true; stderr_readable := true |}.

Definition truthy_opt (o : option string) : bool :=
  match o with Some s => str_truthy s | None => false end.

(** connectToPodTerminal up to its first await. *)
Definition start_terminal (w : world) (pn : string) (containerName shell : option string)
  : session :=
  let cmd := if truthy_opt shell then [show_opt shell] else ["/bin/sh"] in
  if truthy_opt containerName
  then {| sw := open_exec containerName cmd w; ph := TermAwaitExec; podName := pn; command := cmd |}
  else {| sw := emit (ReadPod pn) w; ph := TermAwaitRead; podName := pn; command := cmd |}.

(** streamPodLogs up to its first await. *)
Definition start_logs (w : world) (pn : string) (containerName : option string) : session :=
  if truthy_opt containerName
  then {| sw := emit (LogOpen containerName) w; ph := LogRelay; podName := pn; command := [] |}
  else {| sw := emit (ReadPod pn) w; ph := LogAwaitRead; podName := pn; command := [] |}.

Definition close_1011 (msg : string) : world -> world :=
  when_open (ws_close (Some 1011%Z) (Some msg)).

(** The handler that runs for an event in each phase. *)
Definition step (s : session) (e : event) : session :=
  let w := sw s in
  match e with
  | EvWsState rs => with_world s (set_ws rs w) (ph s)
  | _ =>
  match ph s, e with
  (* connectToPodTerminal *)
  | TermAwaitRead, EvReadDone r =>
      match resolve_container (podName s) r with
      | Ok c => with_world s (open_exec c (command s) w) TermAwaitExec
      | Err m => with_world s (close_1011 ("Error setting up exec: " ++ m) w) Finished
      end
  | TermAwaitExec, EvExecDone (Rejects m) =>
      with_world s (close_1011 ("Error setting up exec: " ++ m) w) Finished
  | TermAwaitExec, EvExecDone (Resolves _) => with_world s w TermRelay
  | TermAwaitExec, EvExit | TermRelay, EvExit =>
      with_world s (when_open (ws_close (Some 1000%Z) (Some "Process finished")) w) (ph s)
  | TermRelay, EvStdoutData d | TermRelay, EvStderrData d =>
      with_world s (when_open (ws_send d) w) TermRelay
  | TermRelay, EvClientMessage d =>
      with_world s (if stdin_writable w then emit (StdinWrite d) w else w) TermRelay
  | TermRelay, EvClientClose =>
      with_world s (stderr_destroy (stdout_destroy (stdin_end (set_ws CLOSED w)))) TermRelay
  | TermRelay, EvClientError => with_world s (stdin_end w) TermRelay
  | TermRelay, EvStdoutError => with_world s (close_1011 "stdout stream error" w) TermRelay
  (* streamPodLogs *)
  | LogAwaitRead, EvReadDone r =>
      match resolve_container (podName s) r with
      | Ok c => with_world s (emit (LogOpen c) w) LogRelay
      | Err m => with_world s (close_1011 ("Error setting up log stream: " ++ m) w) Finished
      end
  | LogRelay, EvLogData d => with_world s (when_open (ws_send d) w) LogRelay
  | LogRelay, EvLogStreamError => with_world s (close_1011 "Log stream error" w) LogRelay
  | LogRelay, EvLogDone => with_world s (when_open (ws_close None None) w) LogRelay
  | LogRelay, EvLogReject m =>
      with_world s
        (when_open (fun w0 => ws_close (Some 1011%Z) (Some ("Error streaming logs: " ++ m))
                                (ws_send ("Error: " ++ m) w0)) w) LogRelay
  | LogRelay, EvClientClose =>
      with_world s (emit LogAbort (emit LogStreamEnd (set_ws CLOSED w))) LogRelay
  (* no handler: the socket still reports its own closing *)
  | _, EvClientClose => with_world s (set_ws CLOSED w) (ph s)
  | _, _ => s
  end
  end.

Definition run (s : session) (es : list event) : session := fold_left step es s.

End Bridge.

Import Bridge.

(* ------------------------------------------------------------------ *)
(** ** Strings, API errors and HTTP responses shared by the services and
    controllers *)

Module Http.

(** The trailing half of [String.prototype.trim]. *)
Fixpoint trim_end (s : string) : string :=
  match s with
  | EmptyString => EmptyString
  | String c r =>
      let r' := trim_end r in
      if is_ws c && String.eqb r' "" then EmptyString else String c r'
  end.

(** [s.trim()]. *)
Definition trim (s : string) : string := trim_end (trim_start s).

(** [s.includes(pat)]. *)
Fixpoint includes (pat s : string) : bool :=
  String.prefix pat s ||
  match s with
  | EmptyString => false
  | String _ r => includes pat r
  end.

(** [s.split(sep)] for a one-character separator. *)
Fixpoint split_on (sep : ascii) (s : string) : list string :=
  match s with
  | EmptyString => [EmptyString]
  | String c r =>
      let rest := split_on sep r in
      if Ascii.eqb c sep then EmptyString :: rest
      else match rest with
           | x :: xs => String c x :: xs
           | [] => [String c EmptyString]
           end
  end.


(** A parameter as the services receive it: [undefined], [null], a string,
    or another value (an array when a query key is repeated) together with
    its template-literal rendering. *)
Inductive arg :=
| AUndef
| ANull
| AStr (s : string)
| AOther (shown : string).

(** A parameter with default value: [(x = d)] only replaces [undefined]. *)
Definition default_arg (d : string) (a : arg) : arg :=
  match a with AUndef => AStr d | a => a end.

(** [if (!x || typeof x !== "string" || x.trim() === "") throw ...; x.trim()]. *)
Definition valid_name (a : arg) : option string :=
  match a with
  | AStr s => if str_truthy s && negb (String.eqb (trim s) "") then Some (trim s) else None
  | _ => None
  end.

(** [`${x}`]. *)
Definition show_arg (a : arg) : string :=
  match a with
  | AUndef => "undefined"
  | ANull => "null"
  | AStr s => s
  | AOther s => s
  end.

(** The controllers' parameter check [!name || name.trim() === ""]. *)
Definition blank_param (s : string) : bool :=
  negb (str_truthy s) || String.eqb (trim s) "".

(** A JSON reply: [{success: true, data}] or [{success: false, error}]. *)
Inductive reply (A : Type) :=
| RData (a : A)
| RError (msg : string).
Arguments RData {A} a.
Arguments RError {A} msg.

Record http_response (A : Type) := { http_status : Z; http_body : reply A }.
Arguments http_status {A} h.
Arguments http_body {A} h.

Definition respond {A} (st : Z) (b : reply A) : http_response A :=
  {| http_status := st; http_body := b |}.

(** The status mapping of the pod, namespace and deployment controllers. *)
Definition status_of_message (msg : string) : Z :=
  if includes "not found" msg then 404
  else if includes "Cannot connect to Kubernetes" msg then 502
  else 500.

End Http.

Import Http.

(* ------------------------------------------------------------------ *)
(** ** WebSocket URL routing (terminal.websocket.js, logs.websocket.js,
    deployment log stream) *)

Module Routes.

(** The character class [[a-zA-Z0-9.-]]. *)
Definition path_char (c : ascii) : bool :=
  let n := nat_of_ascii c in
  ((97 <=? n) && (n <=? 122))%nat || ((65 <=? n) && (n <=? 90))%nat ||
  ((48 <=? n) && (n <=? 57))%nat || (n =? 46)%nat || (n =? 45)%nat.

(** Greedy [[a-zA-Z0-9.-]*]: the longest prefix in the class and the rest. *)
Fixpoint take_seg (s : string) : string * string :=
  match s with
  | String c r =>
      if path_char c then let '(a, b) := take_seg r in (String c a, b)
      else (EmptyString, s)
  | EmptyString => (EmptyString, EmptyString)
  end.

Fixpoint strip_prefix (pre s : string) : option string :=
  match pre, s with
  | EmptyString, _ => Some s
  | String c p, String d r => if Ascii.eqb c d then strip_prefix p r else None
  | String _ _, EmptyString => None
  end.

(** [pathname.match(/^\/api\/namespaces\/([a-zA-Z0-9.-]+)\/pods\/([a-zA-Z0-9.-]+)SUFFIX$/)]
    for a suffix that starts with "/": the two groups.  Since "/" is not in
    the class, the greedy runs are the only candidates for the groups. *)
Definition match_pod_path (suffix pathname : string) : option (string * string) :=
  match strip_prefix "/api/namespaces/" pathname with
  | None => None
  | Some r =>
      let '(ns, r1) := take_seg r in
      if String.eqb ns "" then None else
      match strip_prefix "/pods/" r1 with
      | None => None
      | Some r2 =>
          let '(pod, r3) := take_seg r2 in
          if String.eqb pod "" then None
          else if String.eqb r3 suffix then Some (ns, pod) else None
      end
  end.


(** What a connection handler does with the URL before calling the service. *)
Inductive ws_outcome :=
| WsReject (code : Z) (reason : string)
| WsAccept (namespace podName : string).

Definition pod_connection (suffix pathname : string) : ws_outcome :=
  match match_pod_path suffix pathname with
  | None => WsReject 1008 "Invalid URL format"
  | Some (namespace, podName) =>
      if negb (str_truthy namespace) || negb (str_truthy podName)
      then WsReject 1008 "Namespace and pod name are required"
      else WsAccept namespace podName
  end.

(** createTerminalWebSocketServer's connection handler. *)
Definition terminal_connection (pathname : string) : ws_outcome :=
  pod_connection "/terminal" pathname.

(** createLogWebSocketServer's connection handler. *)
Definition log_connection (pathname : string) : ws_outcome :=
  pod_connection "/logs/stream" pathname.



End Routes.

Import Routes.

(* ------------------------------------------------------------------ *)
(** ** Single-object lookups: getNodeByName, getNamespaceByName,
    getPodByName and their controllers *)

Module Lookups.

(** getNodeByName's own pod loop over listPodForAllNamespaces:
    [if (pod.spec?.nodeName === nodeName) { nodePods.total++; ... }].
    A rejected call or a non-array [items] leaves the counts at zero. *)
Definition count_on_node (nodeName : string) (pods : fetch (js_list pod)) : phase_counts :=
  match pods with
  | Resolves (LArray l) =>
      fold_left (fun c p => if opt_is (p_nodeName p) nodeName then bump (p_phase p) c else c)
        l counts0
  | _ => counts0
  end.

Record node_detail := {
  nd_name : option string;
  nd_pods : phase_counts;
  nd_metrics : node_metrics_field }.

Definition node_error (name : arg) (e : api_error) : string :=
  if is_404 e then "Node '" ++ show_arg name ++ "' not found in the cluster"
  else if is_conn_error e then cannot_connect
  else "Failed to fetch node " ++ show_arg name ++ ": " ++ e_message e.

(** node.service getNodeByName ([readNode], then getNodeMetrics, then the
    pod listing). *)
Definition getNodeByName (name : arg) (readNode : string -> call node)
    (metrics : fetch (metrics_response node_metric)) (pods : fetch (js_list pod))
  : result node_detail :=
  match valid_name name with
  | None => Err (node_error name (plain_error "Node name is required and must be a non-empty string"))
  | Some nodeName =>
      match readNode nodeName with
      | Fails e => Err (node_error name e)
      | Returns n =>
          Ok {| nd_name := n_name n;
                nd_pods := count_on_node nodeName pods;
                nd_metrics :=
                  match get nodeName (getNodeMetrics metrics) with
                  | Own s => NMSample s
                  | Proto f => NMProto f
                  | Undef => NMNull
                  end |}
      end
  end.

(** The node controller's getNodeByName: every service error is a 500. *)
Definition nodeByName_controller (name : string) (readNode : string -> call node)
    (metrics : fetch (metrics_response node_metric)) (pods : fetch (js_list pod))
  : http_response node_detail :=
  if blank_param name then respond 400 (RError "Node name parameter is required")
  else match getNodeByName (AStr (trim name)) readNode metrics pods with
       | Ok d => respond 200 (RData d)
       | Err m => respond 500 (RError m)
       end.

Record namespace_detail := {
  nsd_name : option string;
  nsd_status : string;
  nsd_pods : phase_counts }.

(** getNamespaceByName's loop over listNamespacedPod: every pod counts. *)
Definition count_all (pods : fetch (js_list pod)) : phase_counts :=
  match pods with
  | Resolves (LArray l) => fold_left (fun c p => bump (p_phase p) c) l counts0
  | _ => counts0
  end.

Definition namespace_error (name : arg) (e : api_error) : string :=
  if is_404 e then "Namespace '" ++ show_arg name ++ "' not found in the cluster"
  else if is_conn_error e then cannot_connect
  else "Failed to fetch namespace " ++ show_arg name ++ ": " ++ e_message e.

(** namespace service getNamespaceByName. *)
Definition getNamespaceByName (name : arg) (readNamespace : string -> call namespace)
    (listNamespacedPod : string -> fetch (js_list pod)) : result namespace_detail :=
  match valid_name name with
  | None =>
      Err (namespace_error name
             (plain_error "Namespace name is required and must be a non-empty string"))
  | Some namespaceName =>
      match readNamespace namespaceName with
      | Fails e => Err (namespace_error name e)
      | Returns n =>
          Ok {| nsd_name := ns_name n;
                nsd_status := or_default (ns_phase n) "Active";
                nsd_pods := count_all (listNamespacedPod namespaceName) |}
      end
  end.

Definition namespaceByName_controller (name : string) (readNamespace : string -> call namespace)
    (listNamespacedPod : string -> fetch (js_list pod)) : http_response namespace_detail :=
  if blank_param name then respond 400 (RError "Namespace name parameter is required")
  else match getNamespaceByName (AStr (trim name)) readNamespace listNamespacedPod with
       | Ok d => respond 200 (RData d)
       | Err m => respond (status_of_message m) (RError m)
       end.

Definition pod_error (name namespace : arg) (e : api_error) : string :=
  if is_404 e then
    "Pod '" ++ show_arg name ++ "' not found in namespace '" ++ show_arg namespace ++ "'"
  else if is_conn_error e then cannot_connect
  else "Failed to fetch pod " ++ show_arg name ++ ": " ++ e_message e.

(** pod.service getPodByName, [namespace = "default"]; the fields it shares
    with transformPodData. *)
Definition getPodByName (name namespace0 : arg) (readNamespacedPod : string -> string -> call pod)
    (metrics : fetch (metrics_response pod_metric)) : result pod_out :=
  let namespace := default_arg "default" namespace0 in
  match valid_name name with
  | None =>
      Err (pod_error name namespace (plain_error "Pod name is required and must be a non-empty string"))
  | Some podName =>
      match valid_name namespace with
      | None =>
          Err (pod_error name namespace
                 (plain_error "Namespace is required and must be a non-empty string"))
      | Some namespaceName =>
          match readNamespacedPod podName namespaceName with
          | Fails e => Err (pod_error name namespace e)
          | Returns p =>
              let podMetricsMap := getPodMetrics metrics in
              let metricsKey := namespaceName ++ "/" ++ podName in
              let conditions := match p_conditions p with Some l => l | None => [] end in
              let '(resourceRequests, resourceLimits) :=
                match p_containers p with
                | Some cs => fold_left resource_step cs (res_zero, res_zero)
                | None => (res_zero, res_zero)
                end in
              Ok {| o_name := p_name p;
                    o_namespace := p_namespace p;
                    o_phase := or_default (p_phase p) "Unknown";
                    o_ready := isReady conditions;
                    o_nodeName := p_nodeName p;
                    o_requests := resourceRequests;
                    o_limits := resourceLimits;
                    o_metrics := lookup_metrics metricsKey podMetricsMap |}
          end
      end
  end.

(** pod.controller getPodByName: [{ namespace = "default" } = req.query]. *)
Definition podByName_controller (name : string) (namespace : arg)
    (readNamespacedPod : string -> string -> call pod)
    (metrics : fetch (metrics_response pod_metric)) : http_response pod_out :=
  if blank_param name then respond 400 (RError "Pod name parameter is required")
  else match getPodByName (AStr (trim name)) (default_arg "default" namespace)
               readNamespacedPod metrics with
       | Ok d => respond 200 (RData d)
       | Err m => respond (status_of_message m) (RError m)
       end.

End Lookups.

Import Lookups.

(* ------------------------------------------------------------------ *)
(** ** Metrics service getAllNodeMetrics and its controller *)

Module NodeMetricsApi.

Record node_metric_entry := { me_nodeName : option string; me_sample : node_sample }.

(** The map body of getAllNodeMetrics (same conversions as getNodeMetrics). *)
Definition metrics_entry (nm : node_metric) : node_metric_entry :=
  let cpuUsage := or_default (match nm_usage nm with Some u => u_cpu u | None => None end) "0" in
  let memoryUsage := or_default (match nm_usage nm with Some u => u_memory u | None => None end) "0" in
  {| me_nodeName := nm_name nm;
     me_sample := {| ns_timestamp := nm_timestamp nm; ns_window := nm_window nm;
                     ns_cpu_raw := cpuUsage; ns_millicores := node_cpu_millicores cpuUsage;
                     ns_mem_raw := memoryUsage; ns_bytes := node_memory_bytes memoryUsage |} |}.

Definition node_metrics_error (e : api_error) : string :=
  if is_conn_error e then cannot_connect
  else if is_404 e then "Metrics server is not available in the cluster. Please install metrics-server."
  else "Failed to fetch node metrics: " ++ e_message e.

Definition getAllNodeMetrics (r : call (metrics_response node_metric))
  : result (list node_metric_entry) :=
  match r with
  | Fails e => Err (node_metrics_error e)
  | Returns (Some (LArray l)) => Ok (map metrics_entry l)
  | Returns _ => Err (node_metrics_error (plain_error "No node metrics found or invalid response format"))
  end.

Definition allNodeMetrics_controller (r : call (metrics_response node_metric))
  : http_response (list node_metric_entry) :=
  match getAllNodeMetrics r with
  | Ok l => respond 200 (RData l)
  | Err m =>
      respond (if includes "Metrics server is not available" m then 503
               else if includes "Cannot connect to Kubernetes" m then 502
               else 500) (RError m)
  end.

End NodeMetricsApi.

Import NodeMetricsApi.

(* ------------------------------------------------------------------ *)
(** ** Cluster service: getClusterMetrics, getAllClusters, getClusterByName *)

Module Clusters.

(** A node of listNode: [status.capacity.cpu], [status.capacity.memory],
    [status.conditions]. *)
Record cluster_node := {
  kn_capacity_cpu : option string;
  kn_capacity_memory : option string;
  kn_conditions : option (list condition) }.

Record cluster_metrics := {
  cl_timestamp : string;
  cl_window : string;
  cl_cpu_raw : string;
  cl_millicores : num;
  cl_mem_raw : string;
  cl_bytes : num;
  cl_cap_millicores : num;
  cl_cap_bytes : num;
  cl_totalPods : Z }.

(** The value returned from the catch block. *)
Definition cluster_defaults (now : string) : cluster_metrics :=
  {| cl_timestamp := now; cl_window := "0s"; cl_cpu_raw := "0n"; cl_millicores := fin 0;
     cl_mem_raw := "0Ki"; cl_bytes := fin 0; cl_cap_millicores := fin 0; cl_cap_bytes := fin 0;
     cl_totalPods := 0 |}.

(** [cpuUsage.endsWith("n") ? Math.round(parseInt(cpuUsage.slice(0, -1)) / 1000000)
                           : parseInt(cpuUsage) || 0]. *)
Definition cluster_cpu_of (cpuUsage : string) : num :=
  if ends_with "n" cpuUsage
  then math_round (div_pos (parseInt (slice_drop_end 1 cpuUsage)) 1000000)
  else or0 (parseInt cpuUsage).

(** [parseInt(cpuCapacity) * 1000 || 0]. *)
Definition capacity_cpu_of (cpuCapacity : string) : num :=
  or0 (mul (parseInt cpuCapacity) (fin 1000)).

(** Loop state: totalCpuUsageRaw, totalCpuUsage, totalMemoryUsageRaw,
    totalMemoryUsage, timestamp, window. *)
Record cl_acc := {
  ca_cpuRaw : string; ca_cpu : num; ca_memRaw : string; ca_mem : num;
  ca_ts : string; ca_win : string }.

(** One iteration of [nodeMetrics.items.forEach]; the memory conversion is
    the expression of getPodMetrics. *)
Definition cluster_node_step (a : cl_acc) (nm : node_metric) : cl_acc :=
  let cpuUsage := or_default (match nm_usage nm with Some u => u_cpu u | None => None end) "0" in
  let memoryUsage := or_default (match nm_usage nm with Some u => u_memory u | None => None end) "0" in
  let first := negb (str_truthy (ca_cpuRaw a)) in
  {| ca_cpuRaw := if first then cpuUsage else ca_cpuRaw a;
     ca_memRaw := if first then memoryUsage else ca_memRaw a;
     ca_ts := if first then or_default (nm_timestamp nm) (ca_ts a) else ca_ts a;
     ca_win := if first then or_default (nm_window nm) (ca_win a) else ca_win a;
     ca_cpu := add (ca_cpu a) (cluster_cpu_of cpuUsage);
     ca_mem := add (ca_mem a) (pod_memory_bytes memoryUsage) |}.

Definition cpu_capacity_total (nodes : list cluster_node) : num :=
  fold_left (fun t n => add t (capacity_cpu_of (or_default (kn_capacity_cpu n) "0"))) nodes (fin 0).

Definition memory_capacity_total (nodes : list cluster_node) : num :=
  fold_left (fun t n => add t (pod_memory_bytes (or_default (kn_capacity_memory n) "0"))) nodes (fin 0).

(** getClusterMetrics(nodes, pods): both metrics calls are awaited inside
    the try block; [now] is [new Date().toISOString()]. *)
Definition getClusterMetrics (now : string) (nodeMetrics : fetch (metrics_response node_metric))
    (podMetrics : fetch (metrics_response pod_metric)) (nodes : list cluster_node)
    (pods : list pod) : cluster_metrics :=
  match nodeMetrics, podMetrics with
  | Rejects _, _ => cluster_defaults now
  | _, Rejects _ => cluster_defaults now
  | Resolves nmr, Resolves _ =>
      let a0 := {| ca_cpuRaw := ""; ca_cpu := fin 0; ca_memRaw := ""; ca_mem := fin 0;
                   ca_ts := now; ca_win := "20.022s" |} in
      match nmr with
      | Some LNotArray => cluster_defaults now
      | _ =>
          let a := match nmr with Some (LArray l) => fold_left cluster_node_step l a0 | _ => a0 end in
          {| cl_timestamp := ca_ts a; cl_window := ca_win a;
             cl_cpu_raw := if str_truthy (ca_cpuRaw a) then ca_cpuRaw a else "0n";
             cl_millicores := ca_cpu a;
             cl_mem_raw := if str_truthy (ca_memRaw a) then ca_memRaw a else "0Ki";
             cl_bytes := ca_mem a;
             cl_cap_millicores := cpu_capacity_total nodes;
             cl_cap_bytes := memory_capacity_total nodes;
             cl_totalPods := Z.of_nat (length pods) |}
      end
  end.

Record kcluster := { kc_name : option string; kc_server : option string }.
Record kcontext := { kx_name : option string; kx_cluster : option string }.

(** The value of [kubeConfig.getContexts()]: the client library returns an
    array; an object with a [contexts] property is the shape the code reads. *)
Inductive contexts_value :=
| CtxArray (l : list kcontext)
| CtxObject (contexts : option (list kcontext)).

(** [a === b] on two possibly undefined strings. *)
Definition js_eq_opt (a b : option string) : bool :=
  match a, b with
  | Some x, Some y => String.eqb x y
  | None, None => true
  | _, _ => false
  end.

(** [contexts && contexts.contexts ? contexts.contexts.find((ctx) => ctx.name === currentContext) : null]. *)
Definition current_context_obj (currentContext : option string) (cv : contexts_value)
  : option kcontext :=
  match cv with
  | CtxArray _ => None
  | CtxObject None => None
  | CtxObject (Some l) => find (fun c => js_eq_opt (kx_name c) currentContext) l
  end.

(** [currentContextObj?.cluster || clusters[0]?.name]. *)
Definition current_cluster_name (ctx : option kcontext) (clusters : list kcluster) : option string :=
  let first := match clusters with c :: _ => kc_name c | [] => None end in
  match ctx with
  | Some c =>
      match kx_cluster c with
      | Some s => if str_truthy s then Some s else first
      | None => first
      end
  | None => first
  end.

Record cluster_stats := {
  totalNodes : Z; totalNamespaces : Z; totalPods : Z; readyNodes : Z;
  runningPods : Z; pendingPods : Z; failedPods : Z; succeededPods : Z; unknownPods : Z }.

Definition stats_zero : cluster_stats :=
  {| totalNodes := 0; totalNamespaces := 0; totalPods := 0; readyNodes := 0;
     runningPods := 0; pendingPods := 0; failedPods := 0; succeededPods := 0; unknownPods := 0 |}.

(** [pods.filter((pod) => pod.status?.phase === ph).length]. *)
Definition count_phase (ph : string) (pods : list pod) : Z :=
  Z.of_nat (length (filter (fun p => opt_is (p_phase p) ph) pods)).

Definition node_ready (n : cluster_node) : bool :=
  match kn_conditions n with Some cs => isReady cs | None => false end.

Definition cluster_stats_of (nodes : list cluster_node) (namespaces : list namespace)
    (pods : list pod) : cluster_stats :=
  {| totalNodes := Z.of_nat (length nodes);
     totalNamespaces := Z.of_nat (length namespaces);
     totalPods := Z.of_nat (length pods);
     readyNodes := Z.of_nat (length (filter node_ready nodes));
     runningPods := count_phase "Running" pods;
     pendingPods := count_phase "Pending" pods;
     failedPods := count_phase "Failed" pods;
     succeededPods := count_phase "Succeeded" pods;
     unknownPods := count_phase "Unknown" pods |}.

Record cluster_info := {
  ci_name : option string;
  ci_isCurrent : bool;
  ci_context : string;
  ci_stats : cluster_stats;
  ci_metrics : cluster_metrics;
  ci_namespaces : list (option string) }.

Definition cluster_error (e : api_error) : string :=
  if is_conn_error e then cannot_connect
  else "Failed to fetch cluster information: " ++ e_message e.

(** [r.body?.items || r.items || []]. *)
Definition items_or_empty {A} (o : option (list A)) : list A :=
  match o with Some l => l | None => [] end.

(** getAllClusters: getCode, the kubeconfig reads, listNamespace, listNode,
    listPodForAllNamespaces, then getClusterMetrics. *)
Definition getAllClusters (now : string) (version : call unit) (currentContext : option string)
    (cv : contexts_value) (clusters : list kcluster)
    (namespacesR : call (option (list namespace))) (nodesR : call (option (list cluster_node)))
    (podsR : call (option (list pod)))
    (nodeMetrics : fetch (metrics_response node_metric))
    (podMetrics : fetch (metrics_response pod_metric)) : result (list cluster_info) :=
  match version with
  | Fails e => Err (cluster_error e)
  | Returns _ =>
  let currentContextObj := current_context_obj currentContext cv in
  match namespacesR with
  | Fails e => Err (cluster_error e)
  | Returns nso =>
  let namespaces := items_or_empty nso in
  match nodesR with
  | Fails e => Err (cluster_error e)
  | Returns no =>
  let nodes := items_or_empty no in
  match podsR with
  | Fails e => Err (cluster_error e)
  | Returns po =>
  let pods := items_or_empty po in
  let clusterMetrics := getClusterMetrics now nodeMetrics podMetrics nodes pods in
  let currentClusterName := current_cluster_name currentContextObj clusters in
  Ok (map (fun c =>
        let isCurrentCluster :=
          js_eq_opt (kc_name c) currentClusterName || Nat.eqb (length clusters) 1 in
        {| ci_name := kc_name c;
           ci_isCurrent := isCurrentCluster;
           ci_context := if isCurrentCluster then show_opt currentContext
                         else "context-for-" ++ show_opt (kc_name c);
           ci_stats := if isCurrentCluster then cluster_stats_of nodes namespaces pods
                       else stats_zero;
           ci_metrics := if isCurrentCluster then clusterMetrics else cluster_defaults now;
           ci_namespaces := if isCurrentCluster then map ns_name namespaces else [] |}) clusters)
  end end end end.

(** getClusterByName: every error is wrapped. *)
Definition getClusterByName (name : arg) (allClusters : result (list cluster_info))
  : result cluster_info :=
  let wrap m := "Failed to fetch cluster " ++ show_arg name ++ ": " ++ m in
  match valid_name name with
  | None => Err (wrap "Cluster name is required and must be a non-empty string")
  | Some clusterName =>
      match allClusters with
      | Err m => Err (wrap m)
      | Ok cs =>
          match find (fun c => js_eq_opt (ci_name c) (Some clusterName)) cs with
          | Some c => Ok c
          | None => Err (wrap ("Cluster '" ++ clusterName ++ "' not found"))
          end
      end
  end.

Definition clusterByName_controller (name : string) (allClusters : result (list cluster_info))
  : http_response cluster_info :=
  if blank_param name then respond 400 (RError "Cluster name parameter is required")
  else match getClusterByName (AStr (trim name)) allClusters with
       | Ok c => respond 200 (RData c)
       | Err m => respond 500 (RError m)
       end.

End Clusters.

Import Clusters.

(* ------------------------------------------------------------------ *)
(** ** Deployment service: getDeploymentByName, getDeploymentPods,
    streamDeploymentLogs *)

Module Deployments.




(** [Object.entries(matchLabels).map(([key, value]) => `${key}=${value}`).join(",")]. *)
Definition labelSelector (labels : list (string * string)) : string :=
  String.concat "," (map (fun kv => fst kv ++ "=" ++ snd kv) labels).


Definition finished (w : world) : session :=
  {| sw := w; ph := Finished; podName := ""; command := [] |}.

(** streamDeploymentLogs given the outcome of getDeploymentPods: the first
    pod's first container is handed to streamPodLogs (not awaited). *)
Definition streamDeploymentLogs (w : world) (deploymentName : arg) (pods : result (list pod))
  : session :=
  let fail m := finished (close_1011 ("Error setting up log stream: " ++ m) w) in
  match pods with
  | Err m => fail m
  | Ok [] => fail ("No pods found for deployment " ++ show_arg deploymentName)
  | Ok (p :: _) =>
      match p_containers p with
      | Some (c :: _) => start_logs w (show_opt (p_name p)) (c_name c)
      | Some [] => fail "Cannot read properties of undefined (reading 'name')"
      | None => fail "Cannot read properties of undefined (reading '0')"
      end
  end.


End Deployments.

Import Deployments.

(* ------------------------------------------------------------------ *)
(** ** Pod interaction getPodLogs *)

Module PodLogs.

(** getPodLogs(k8sApi, namespace, podName, containerName): the container
    resolution of the streaming sessions, then readNamespacedPodLog. *)
Definition getPodLogs (podName : string) (containerName : option string)
    (readNamespacedPod : fetch pod_resp) (readNamespacedPodLog : option string -> fetch string)
  : fetch string :=
  if truthy_opt containerName then readNamespacedPodLog containerName
  else match resolve_container podName readNamespacedPod with
       | Ok c => readNamespacedPodLog c
       | Err m => Rejects m
       end.

End PodLogs.

Import PodLogs.

(* ------------------------------------------------------------------ *)
(** ** Auxiliary definitions for the statements about the modules above *)

(** Every character of [s] is in [[a-zA-Z0-9.-]]. *)
Fixpoint all_path_chars (s : string) : bool :=
  match s with
  | EmptyString => true
  | String c r => path_char c && all_path_chars r
  end.

Definition pod_path (ns pod suffix : string) : string :=
  "/api/namespaces/" ++ ns ++ "/pods/" ++ pod ++ suffix.


(** [s] does not contain the character [c]. *)
Fixpoint no_char (c : ascii) (s : string) : bool :=
  match s with
  | EmptyString => true
  | String d r => negb (Ascii.eqb d c) && no_char c r
  end.

(** How a label selector reads back: its [,]-separated terms split at [=]. *)
Definition selector_entries (s : string) : list (list string) :=
  map (split_on "="%char) (split_on ","%char s).

(** The sample of the last entry named [n] in a getAllNodeMetrics list. *)
Definition last_entry_for (n : string) (es : list node_metric_entry) : option node_sample :=
  fold_left (fun acc e => if opt_is (me_nodeName e) n then Some (me_sample e) else acc) es None.

Definition node_cpu_usage (nm : node_metric) : string :=
  or_default (match nm_usage nm with Some u => u_cpu u | None => None end) "0".

(** Decimal digits (each in 0..9) written as a string, and their value. *)
Definition digit_string (ds : list Z) : string :=
  fold_right (fun d s => String (ascii_of_nat (48 + Z.to_nat d)) s) EmptyString ds.

Definition digits_value (ds : list Z) : Z :=
  fold_left (fun a d => 10 * a + d)%Z ds 0%Z.

Definition phase_sum (s : cluster_stats) : Z :=
  (runningPods s + pendingPods s + failedPods s + succeededPods s + unknownPods s)%Z.

(** A readNamespacedPod response whose spec declares [cs]. *)
Definition pod_resp_of (cs : list container) : pod_resp :=
  {| body := Some {| b_spec := Some {| sp_containers := Some cs |} |} |}.

(* ------------------------------------------------------------------ *)
(** ** Statements following the specification's words

    These read the specification literally; they are compared with the
    definitions translated from the source above. *)

(** Spec: "keep the first non-empty value encountered", defaulting to "0". *)
Definition spec_first_nonempty (vs : list (option string)) : string :=
  match find Bridge.truthy_opt vs with
  | Some (Some v) => v
  | _ => "0"
  end.

(** Spec: ready iff some condition of type "Ready" has status "True". *)
Definition spec_ready (conds : list condition) : bool :=
  existsb (fun c => opt_is (cond_type c) "Ready" && opt_is (cond_status c) "True") conds.

(** Selectors of the four resource fields of a container spec. *)
Definition req_of (c : container) : option resource_list :=
  match c_resources c with Some r => r_requests r | None => None end.
Definition lim_of (c : container) : option resource_list :=
  match c_resources c with Some r => r_limits r | None => None end.
Definition cpu_in (o : option resource_list) : option string :=
  match o with Some l => rl_cpu l | None => None end.
Definition mem_in (o : option resource_list) : option string :=
  match o with Some l => rl_memory l | None => None end.

Definition containers_of (p : pod) : list container :=
  match p_containers p with Some cs => cs | None => [] end.

(** [v] is the last non-empty entry of [vs], or "0" when every entry is empty. *)
Definition last_nonempty (vs : list (option string)) (v : string) : Prop :=
  (Forall (fun o => Bridge.truthy_opt o = false) vs /\ v = "0") \/
  (exists pre post, vs = (pre ++ Some v :: post)%list /\ str_truthy v = true /\
     Forall (fun o => Bridge.truthy_opt o = false) post).

(** Metrics fetches that fail: a rejection, a [null] body, or [items] that
    are absent or not an array. *)
Definition fetch_failed {A} (r : fetch (metrics_response A)) : Prop :=
  match r with
  | Resolves (Some (LArray _)) => False
  | _ => True
  end.

Fixpoint has_slash (s : string) : bool :=
  match s with
  | EmptyString => false
  | String c r => Ascii.eqb c "/"%char || has_slash r
  end.

(** Fixtures and auxiliary definitions used by the statements below. *)

Definition c1_pod : pod :=
  mkpod [] [ctr (Some (rl (Some "100m") None)) None; ctr (Some (rl (Some "200m") None)) None].

Definition conditions_of (p : pod) : list condition :=
  match p_conditions p with Some l => l | None => [] end.

Definition c7_pod : pod :=
  mkpod [{| cond_type := Some "Ready"; cond_status := Some "False" |};
         {| cond_type := Some "Ready"; cond_status := Some "True" |}] [].

Definition cms (pm : pod_metric) : list container_metric :=
  match pm_containers pm with Some cs => cs | None => [] end.

Definition c2_metric : pod_metric :=
  {| pm_name := Some "web-1"; pm_namespace := Some "default"; pm_timestamp := None;
     pm_window := None; pm_containers := Some [cm "4000n" "1Ki"; cm "4000n" "1Ki"] |}.

Definition one_container_metric (c : container_metric) : pod_metric :=
  {| pm_name := Some "web-1"; pm_namespace := Some "default"; pm_timestamp := None;
     pm_window := None; pm_containers := Some [c] |}.

Definition c9_node_metric : node_metric :=
  {| nm_name := Some "node-1"; nm_timestamp := None; nm_window := None;
     nm_usage := Some {| u_cpu := Some "250000000n"; u_memory := Some "1000" |} |}.

Definition proto_key (k : string) : bool := existsb (String.eqb k) proto_members.

(** Pods whose group key lands in an own entry of the counter. *)
Definition counted (key : pod -> option string) (p : pod) : bool :=
  match key p with Some k => str_truthy k && negb (proto_key k) | None => false end.

Definition wf_counts (c : phase_counts) : Prop :=
  (0 <= running c /\ 0 <= pending c /\ 0 <= failed c /\ 0 <= succeeded c)%Z /\
  (running c + pending c + failed c + succeeded c <= total c)%Z.

Definition counter_inv (m : obj phase_counts) : Prop :=
  Forall (fun kv => proto_key (fst kv) = false /\ wf_counts (snd kv)) m.

Definition c5_pod (nodeName ns : string) : pod :=
  {| p_name := Some "web-1"; p_namespace := Some ns; p_phase := Some "Running";
     p_conditions := None; p_nodeName := Some nodeName; p_containers := None |}.

(** The calls made on the client socket between [w] and [w'] are appended
    to those of [w], and each was made while the socket was OPEN. *)
Definition appends_only_open_calls (w w' : world) : Prop :=
  exists extra, calls w' = (calls w ++ extra)%list /\ Forall (fun c => fst c = OPEN) extra.

Definition is_read_done (e : event) : bool :=
  match e with EvReadDone _ => true | _ => false end.

Definition is_exec_open (rc : remote_call) : bool :=
  match rc with ExecOpen _ _ => true | _ => false end.

(** [readNamespacedPod] resolving to a pod with [spec.containers: []]. *)
Definition empty_pod_resp : fetch pod_resp :=
  Resolves {| body := Some {| b_spec := Some {| sp_containers := Some [] |} |} |}.

Definition fresh_world : world :=
  {| ws := OPEN; calls := []; remote := []; stdin_writable := false;
     stdout_readable := false; stderr_readable := false |}.

(* ------------------------------------------------------------------ *)
(** ** C1: resource requests and limits of a transformed pod *)

Section LastNonEmpty.

Variable proj : res_out * res_out -> string.
Variable sel : container -> option string.
Hypothesis proj_init : proj (res_zero, res_zero) = "0".
Hypothesis proj_step : forall st c,
  proj (resource_step st c) =
  match sel c with Some v => if str_truthy v then v else proj st | None => proj st end.

Lemma fold_last_nonempty (cs : list container) :
  last_nonempty (map sel cs) (proj (fold_left resource_step cs (res_zero, res_zero))).
Proof.
  induction cs as [|c cs IH] using rev_ind.
  - left. split; [constructor | exact proj_init].
  - rewrite fold_left_app, map_app. simpl. rewrite proj_step.
    destruct (sel c) as [v|] eqn:Hs.
    + destruct (str_truthy v) eqn:Ht.
      * right. exists (map sel cs), []. repeat split; auto.
      * destruct IH as [[HF Hv] | (pre & post & Heq & Htr & HF)].
        -- left. split; [apply Forall_app; split; [exact HF | constructor; [exact Ht | constructor]] | exact Hv].
        -- right. exists pre, (post ++ [Some v])%list. rewrite Heq, <- app_assoc. simpl.
           repeat split; auto. apply Forall_app; split; [exact HF | constructor; [exact Ht | constructor]].
    + destruct IH as [[HF Hv] | (pre & post & Heq & Htr & HF)].
      * left. split; [apply Forall_app; split; [exact HF | constructor; [reflexivity | constructor]] | exact Hv].
      * right. exists pre, (post ++ [None])%list. rewrite Heq, <- app_assoc. simpl.
        repeat split; auto. apply Forall_app; split; [exact HF | constructor; [reflexivity | constructor]].
Qed.

End LastNonEmpty.

Ltac step_field :=
  intros [[? ?] [? ?]] [? [[[[? ?]|] [[? ?]|]]|]];
  unfold resource_step, apply_list; simpl;
  repeat match goal with
         | |- context [match ?o with Some _ => _ | None => _ end] => destruct o
         | |- context [if ?b then _ else _] => destruct b
         end; reflexivity.

Lemma step_req_cpu st c : o_cpu (fst (resource_step st c)) =
  match cpu_in (req_of c) with Some v => if str_truthy v then v else o_cpu (fst st) | None => o_cpu (fst st) end.
Proof. revert st c. step_field. Qed.
Lemma step_req_mem st c : o_memory (fst (resource_step st c)) =
  match mem_in (req_of c) with Some v => if str_truthy v then v else o_memory (fst st) | None => o_memory (fst st) end.
Proof. revert st c. step_field. Qed.
Lemma step_lim_cpu st c : o_cpu (snd (resource_step st c)) =
  match cpu_in (lim_of c) with Some v => if str_truthy v then v else o_cpu (snd st) | None => o_cpu (snd st) end.
Proof. revert st c. step_field. Qed.
Lemma step_lim_mem st c : o_memory (snd (resource_step st c)) =
  match mem_in (lim_of c) with Some v => if str_truthy v then v else o_memory (snd st) | None => o_memory (snd st) end.
Proof. revert st c. step_field. Qed.

Lemma transform_resources_eq p m :
  (o_requests (transformPodData p m), o_limits (transformPodData p m)) =
  fold_left resource_step (containers_of p) (res_zero, res_zero).
Proof.
  unfold transformPodData, resource_totals, containers_of.
  destruct (p_containers p); simpl;
  [destruct (fold_left resource_step l (res_zero, res_zero)) | ]; reflexivity.
Qed.

(** ** C1 *)


(** C1 (counterexample): with two containers requesting cpu "100m" then
    "200m", the transformed pod reports "200m", not the first non-empty
    value "100m". *)
Lemma C1_first_nonempty_fails :
  o_cpu (o_requests (transformPodData c1_pod [])) = "200m" /\
  spec_first_nonempty (map (fun c => cpu_in (req_of c)) (containers_of c1_pod)) = "100m".
Proof. split; reflexivity. Qed.

(** C1 (amended): each of requests.cpu, requests.memory, limits.cpu and
    limits.memory of the transformed pod is, independently, the LAST
    non-empty value among the pod's containers in spec order, and "0" when
    no container supplies one. *)
Theorem C1_transform_resources_last_nonempty (p : pod) (m : obj pod_sample) :
  last_nonempty (map (fun c => cpu_in (req_of c)) (containers_of p))
                (o_cpu (o_requests (transformPodData p m))) /\
  last_nonempty (map (fun c => mem_in (req_of c)) (containers_of p))
                (o_memory (o_requests (transformPodData p m))) /\
  last_nonempty (map (fun c => cpu_in (lim_of c)) (containers_of p))
                (o_cpu (o_limits (transformPodData p m))) /\
  last_nonempty (map (fun c => mem_in (lim_of c)) (containers_of p))
                (o_memory (o_limits (transformPodData p m))).
Proof.
  pose proof (transform_resources_eq p m) as E.
  assert (E1 : o_requests (transformPodData p m) =
               fst (fold_left resource_step (containers_of p) (res_zero, res_zero)))
    by (rewrite <- E; reflexivity).
  assert (E2 : o_limits (transformPodData p m) =
               snd (fold_left resource_step (containers_of p) (res_zero, res_zero)))
    by (rewrite <- E; reflexivity).
  rewrite E1, E2. repeat split.
  - apply (fold_last_nonempty (fun st => o_cpu (fst st))); [reflexivity | apply step_req_cpu].
  - apply (fold_last_nonempty (fun st => o_memory (fst st))); [reflexivity | apply step_req_mem].
  - apply (fold_last_nonempty (fun st => o_cpu (snd st))); [reflexivity | apply step_lim_cpu].
  - apply (fold_last_nonempty (fun st => o_memory (snd st))); [reflexivity | apply step_lim_mem].
Qed.

(** ** C7 *)



(** C7 (counterexample): a pod whose conditions hold a Ready condition with
    status "False" followed by one with status "True" contains a Ready/"True"
    condition, yet is reported not ready. *)
Lemma C7_ready_second_condition_ignored :
  spec_ready (conditions_of c7_pod) = true /\ o_ready (transformPodData c7_pod []) = false.
Proof. split; reflexivity. Qed.

Lemma isReady_first (conds : list condition) :
  isReady conds = true <->
  exists pre c post, conds = (pre ++ c :: post)%list /\
    Forall (fun c' => opt_is (cond_type c') "Ready" = false) pre /\
    opt_is (cond_type c) "Ready" = true /\ cond_status c = Some "True".
Proof.
  unfold isReady. induction conds as [|c0 conds IH]; simpl.
  - split; [discriminate | intros (pre & c & post & H & _)].
    destruct pre; discriminate.
  - destruct (opt_is (cond_type c0) "Ready") eqn:Hr.
    + split.
      * intro Hs. exists [], c0, conds. repeat split; auto.
        unfold opt_is in Hs. destruct (cond_status c0) as [st|]; [|discriminate].
        apply String.eqb_eq in Hs. subst. reflexivity.
      * intros (pre & c & post & Heq & HF & Hc & Hst). destruct pre as [|c1 pre].
        -- injection Heq as -> ->. rewrite Hst. reflexivity.
        -- injection Heq as -> _. inversion HF; congruence.
    + rewrite IH. split.
      * intros (pre & c & post & Heq & HF & Hc & Hst). exists (c0 :: pre), c, post.
        rewrite Heq. repeat split; auto.
      * intros (pre & c & post & Heq & HF & Hc & Hst). destruct pre as [|c1 pre].
        -- injection Heq as -> ->. congruence.
        -- injection Heq as -> ->. inversion HF; subst. exists pre, c, post. auto.
Qed.

(** C7 (amended): the transformed pod's status.ready is true iff the FIRST
    condition of type "Ready" in status.conditions has status exactly
    "True"; an absent Ready condition yields false. *)
Theorem C7_ready_iff_first_ready_true (p : pod) (m : obj pod_sample) :
  o_ready (transformPodData p m) = true <->
  exists pre c post, conditions_of p = (pre ++ c :: post)%list /\
    Forall (fun c' => opt_is (cond_type c') "Ready" = false) pre /\
    cond_type c = Some "Ready" /\ cond_status c = Some "True".
Proof.
  assert (E : o_ready (transformPodData p m) = isReady (conditions_of p)).
  { unfold transformPodData, conditions_of.
    destruct (resource_totals p). reflexivity. }
  rewrite E, isReady_first.
  split; intros (pre & c & post & H1 & H2 & H3 & H4); exists pre, c, post;
    repeat split; auto.
  - unfold opt_is in H3. destruct (cond_type c); [|discriminate].
    apply String.eqb_eq in H3. subst. reflexivity.
  - rewrite H3. reflexivity.
Qed.

(** ** C4 *)

Lemma has_slash_app_slash (a b : string) : has_slash (a ++ String "/"%char b) = true.
Proof. induction a as [|c a IH]; simpl; [reflexivity | rewrite IH, orb_true_r; reflexivity]. Qed.

Lemma get_slash_undef {A} (k : string) :
  has_slash k = true -> get k ([] : obj A) = Undef.
Proof.
  intro Hk. unfold get. cbn [own].
  destruct (existsb (String.eqb k) proto_members) eqn:E; [|reflexivity].
  apply existsb_exists in E as (x & Hin & Hx). apply String.eqb_eq in Hx. subst x.
  simpl in Hin.
  repeat (destruct Hin as [<- | Hin]; [discriminate Hk |]). destruct Hin.
Qed.

(** C4: when the metrics fetch fails (rejected call, null body, [items]
    absent or not an array), getPodMetrics returns the empty map and
    getAllPods, given a pod listing, still succeeds with one record per pod
    whose metrics field is null. *)
Theorem C4_metrics_failure_degrades (items : list pod) (metrics : fetch (metrics_response pod_metric))
    (namespace : option string) :
  fetch_failed metrics ->
  getPodMetrics metrics = [] /\
  exists outs, getAllPods namespace (Returns (LArray items)) metrics = Ok outs /\
    length outs = length items /\ Forall (fun o => o_metrics o = MNull) outs.
Proof.
  intro Hf.
  assert (H0 : getPodMetrics metrics = []).
  { destruct metrics as [msg | [[| |l]|]]; simpl in *; tauto. }
  split; [exact H0 |].
  eexists. split; [unfold getAllPods; rewrite H0; reflexivity |].
  split; [apply length_map |].
  apply Forall_forall. intros o Hin. apply in_map_iff in Hin as (p & <- & _).
  unfold transformPodData. destruct (resource_totals p). simpl.
  unfold lookup_metrics, metrics_key. rewrite get_slash_undef; [reflexivity |].
  apply has_slash_app_slash.
Qed.

(** ** Arithmetic on the JS number model *)

Lemma fin_eq (a b : Q) : a == b -> fin a = fin b.
Proof. intro H. unfold fin. f_equal. apply Qred_complete. exact H. Qed.

Lemma add_fin (a b : Q) : add (fin a) (fin b) = fin (a + b).
Proof. apply fin_eq. rewrite !Qred_correct. reflexivity. Qed.

Lemma mul_fin (a b : Q) : mul (fin a) (fin b) = fin (a * b).
Proof. apply fin_eq. rewrite !Qred_correct. reflexivity. Qed.

Lemma Qred_inject_Z (z : Z) : Qred (inject_Z z) = inject_Z z.
Proof.
  unfold Qred, inject_Z.
  pose proof (Z.ggcd_gcd z 1) as Hg. pose proof (Z.ggcd_correct_divisors z 1) as Hd.
  destruct (Z.ggcd z 1) as [g [a b]]. simpl in Hg. rewrite Z.gcd_1_r in Hg. subst g.
  destruct Hd as [Ha Hb]. rewrite Z.mul_1_l in Ha, Hb. subst. reflexivity.
Qed.

Lemma parseInt_shape (s : string) :
  parseInt s = NaN \/ exists z, parseInt s = fin (inject_Z z).
Proof.
  unfold parseInt. destruct (sign (trim_start s)) as [sg r].
  destruct (match r with
            | String "0"%char (String "x"%char t) | String "0"%char (String "X"%char t) => (true, t)
            | _ => (false, r)
            end) as [hex r'].
  destruct (digits hex r' 0%Z 0) as [[v cnt] rest].
  destruct (cnt =? 0)%nat; [left; reflexivity | right; eauto].
Qed.

(** ** C2 *)


Lemma totalCpu_fold (cs : list container_metric) (a : acc) :
  totalCpu (fold_left container_step cs a) =
  fold_left (fun t c => add t (pod_cpu_millicores (cpu_of c))) cs (totalCpu a).
Proof.
  revert a. induction cs as [|c cs IH]; intro a; simpl; [reflexivity |].
  rewrite IH. unfold container_step. destruct (negb (str_truthy (cpuRaw a))); reflexivity.
Qed.

Lemma totalMem_fold (cs : list container_metric) (a : acc) :
  totalMem (fold_left container_step cs a) =
  fold_left (fun t c => add t (pod_memory_bytes (memory_of c))) cs (totalMem a).
Proof.
  revert a. induction cs as [|c cs IH]; intro a; simpl; [reflexivity |].
  rewrite IH. unfold container_step. destruct (negb (str_truthy (cpuRaw a))); reflexivity.
Qed.

Lemma sample_totals (pm : pod_metric) :
  cpu_millicores (pod_sample_of pm) = to_fixed_num 2 (totalCpu (fold_left container_step (cms pm) acc0)) /\
  mem_bytes (pod_sample_of pm) = totalMem (fold_left container_step (cms pm) acc0).
Proof. unfold pod_sample_of, cms. destruct (pm_containers pm); split; reflexivity. Qed.

Lemma mem_fold_Ki (cs : list container_metric) (ks : list Z) (z0 : Z) :
  Forall2 (fun c k => ends_with "Ki" (memory_of c) = true /\
                      parseInt (slice_drop_end 2 (memory_of c)) = fin (inject_Z k)) cs ks ->
  fold_left (fun t c => add t (pod_memory_bytes (memory_of c))) cs (fin (inject_Z z0)) =
  fin (inject_Z (z0 + 1024 * fold_right Z.add 0%Z ks)).
Proof.
  intro H. revert z0. induction H as [|c k cs ks [Hk Hp] _ IH]; intro z0; cbn [fold_left fold_right].
  - match goal with |- fin (inject_Z ?a) = fin (inject_Z ?b) => replace b with a by lia end.
    reflexivity.
  - assert (E : add (fin (inject_Z z0)) (pod_memory_bytes (memory_of c)) = fin (inject_Z (z0 + k * 1024))).
    { unfold pod_memory_bytes. rewrite Hk, Hp.
      replace (fin 1024) with (fin (inject_Z 1024)) by reflexivity.
      rewrite mul_fin, add_fin. apply fin_eq. rewrite inject_Z_plus, inject_Z_mult. reflexivity. }
    rewrite E, IH.
    match goal with |- fin (inject_Z ?a) = fin (inject_Z ?b) => replace b with a by lia end.
    reflexivity.
Qed.


(** C2 (counterexample): two containers each using "4000n" (0.004
    millicores) give a sample with millicores 0, because each container is
    rounded to two decimals before summing; normalising the raw sum
    "8000n" once gives 0.01. *)
Lemma C2_rounded_before_sum :
  option_map cpu_millicores
    (own "default/web-1" (getPodMetrics (Resolves (Some (LArray [c2_metric]))))) = Some (fin 0) /\
  pod_cpu_millicores "8000n" = fin (1 # 100).
Proof. split; reflexivity. Qed.

(** C2 (amended): for every pod metrics item, the sample's millicores is
    the two-decimal rounding of the sum of the per-container values, each
    already normalised (nanocores / 10^6 rounded to two decimals, or
    [parseFloat(raw) || 0]); bytes is the sum of the per-container byte
    values, which, when every container reports a Ki quantity, equals 1024
    times the sum of the raw Ki integers. *)
Theorem C2_sample_sums_normalised_values (pm : pod_metric) :
  cpu_millicores (pod_sample_of pm) =
    to_fixed_num 2 (fold_left (fun t c => add t (pod_cpu_millicores (cpu_of c))) (cms pm) (fin 0)) /\
  mem_bytes (pod_sample_of pm) =
    fold_left (fun t c => add t (pod_memory_bytes (memory_of c))) (cms pm) (fin 0) /\
  (forall ks, Forall2 (fun c k => ends_with "Ki" (memory_of c) = true /\
                      parseInt (slice_drop_end 2 (memory_of c)) = fin (inject_Z k)) (cms pm) ks ->
   mem_bytes (pod_sample_of pm) = fin (inject_Z (1024 * fold_right Z.add 0%Z ks))).
Proof.
  destruct (sample_totals pm) as [Hc Hm].
  rewrite Hc, Hm, totalCpu_fold, totalMem_fold. repeat split.
  intros ks Hks. replace (totalMem acc0) with (fin (inject_Z 0)) by reflexivity.
  rewrite (mem_fold_Ki _ _ _ Hks). reflexivity.
Qed.

(** ** C8 *)


(** C8 (counterexample): on the pod metrics path a container using
    "1500000n" yields millicores 3/2, which is not an integer. *)
Lemma C8_pod_millicores_fractional :
  cpu_millicores (pod_sample_of (one_container_metric (cm "1500000n" "0"))) = Fin (3 # 2) /\
  ~ (exists z, Fin (3 # 2) = fin (inject_Z z)).
Proof.
  split; [reflexivity |].
  intros [z H]. unfold fin in H. rewrite Qred_inject_Z in H. injection H as _ H. discriminate H.
Qed.

Lemma node_round_nanocores (p : Z) :
  math_round (div_pos (fin (inject_Z p)) 1000000) = fin (inject_Z ((p + 500000) / 1000000)).
Proof.
  unfold math_round, div_pos, fin.
  assert (Hq : Qred (Qred (inject_Z p) / Qmake 1000000 1) + (1 # 2) == Qmake (p + 500000) 1000000).
  { rewrite !Qred_correct. unfold Qeq, Qdiv, Qmult, Qinv, Qplus, inject_Z. simpl. lia. }
  rewrite (Qfloor_comp _ _ Hq). reflexivity.
Qed.

Lemma pod_two_decimals (x : num) :
  (exists q, x = Fin q) -> exists z, to_fixed_num 2 x = fin (z # 100).
Proof.
  intros [q ->]. simpl. unfold round_fixed. eexists. reflexivity.
Qed.

Lemma to_double_compat (x y : Q) : x == y -> to_double x = to_double y.
Proof.
  intros H. unfold to_double. rewrite (Qred_complete x y H). reflexivity.
Qed.

Lemma round_fixed2_shape (r : Q) : exists z, round_fixed 2 r = z # 100.
Proof. unfold round_fixed. eexists. reflexivity. Qed.

(** Rounding to two decimals moves a value by at most 0.005. *)
Lemma round_fixed2_close (r : Q) : Qabs (round_fixed 2 r - r) <= 1 # 200.
Proof.
  destruct r as [a bp]. unfold round_fixed. cbn [Qnum Qden].
  change (Z.to_pos (10 ^ Z.of_nat 2)) with 100%positive.
  change (10 ^ Z.of_nat 2)%Z with 100%Z.
  assert (Hd := Z.div_mod (2 * 100 * Z.abs a + Zpos bp) (2 * Zpos bp) ltac:(lia)).
  assert (Hm := Z.mod_pos_bound (2 * 100 * Z.abs a + Zpos bp) (2 * Zpos bp) ltac:(lia)).
  set (n := ((2 * 100 * Z.abs a + Zpos bp) / (2 * Zpos bp))%Z) in *.
  set (rm := ((2 * 100 * Z.abs a + Zpos bp) mod (2 * Zpos bp))%Z) in *.
  unfold Qminus, Qplus, Qopp, Qabs, Qle. cbn [Qnum Qden].
  rewrite Pos2Z.inj_mul.
  destruct (Z.lt_trichotomy a 0) as [Ha | [Ha | Ha]].
  - rewrite (Z.sgn_neg a Ha), (Z.abs_neq a) in * by lia.
    destruct (Z.abs_spec (-1 * n * Zpos bp + - a * 100)) as [[_ ->] | [_ ->]]; nia.
  - subst a. cbn [Z.sgn Z.abs] in *.
    destruct (Z.abs_spec (0 * n * Zpos bp + - 0 * 100)) as [[_ ->] | [_ ->]]; nia.
  - rewrite (Z.sgn_pos a Ha), (Z.abs_eq a) in * by lia.
    destruct (Z.abs_spec (1 * n * Zpos bp + - a * 100)) as [[_ ->] | [_ ->]]; nia.
Qed.

Lemma pod_millicores_nanocores (s : string) (p : Z) :
  ends_with "n" s = true -> parseInt (slice_drop_end 1 s) = fin (inject_Z p) ->
  pod_cpu_millicores s = fin (round_fixed 2 (to_double (p # 1000000))).
Proof.
  intros Hn Hp. unfold pod_cpu_millicores. rewrite Hn, Hp.
  unfold to_fixed_num, div_pos, fin.
  rewrite (to_double_compat _ (p # 1000000)); [reflexivity |].
  rewrite !Qred_correct. unfold Qeq, Qdiv, Qmult, Qinv, inject_Z. simpl. lia.
Qed.

(** C8 (amended): for a CPU quantity ending in "n" whose prefix parses to
    the integer p, the node metrics path gives Math.round(p / 10^6), the
    nearest integer (halves rounded up), while the pod metrics path gives
    the double nearest p / 10^6 rounded to two decimals by toFixed: a
    multiple of 0.01 within 0.005 of that double, which need not be an
    integer ("1500000n" gives 1.5; "1005000n" gives 1, as the double
    nearest 1.005 lies below it); an unparsable prefix gives NaN on both
    paths.  Both give 500 for "500000000n"; an empty CPU value is defaulted
    to "0", which gives 0 on the pod path and the unparsed string "0" on
    the node path. *)
Theorem C8_cpu_normalisation :
  (forall s p, ends_with "n" s = true -> parseInt (slice_drop_end 1 s) = fin (inject_Z p) ->
     node_cpu_millicores s = VNum (fin (inject_Z ((p + 500000) / 1000000))) /\
     pod_cpu_millicores s = fin (round_fixed 2 (to_double (p # 1000000))) /\
     (exists z, pod_cpu_millicores s = fin (z # 100) /\
        (Qabs ((z # 100) - to_double (p # 1000000)) <= 1 # 200)%Q)) /\
  (forall s, ends_with "n" s = true -> parseInt (slice_drop_end 1 s) = NaN ->
     node_cpu_millicores s = VNum NaN /\ pod_cpu_millicores s = NaN) /\
  pod_cpu_millicores "1500000n" = fin (3 # 2) /\
  node_cpu_millicores "1500000n" = VNum (fin 2) /\
  pod_cpu_millicores "1005000n" = fin 1 /\
  node_cpu_millicores "500000000n" = VNum (fin 500) /\
  pod_cpu_millicores "500000000n" = fin 500 /\
  pod_cpu_millicores (cpu_of (cm "" "")) = fin 0 /\
  node_cpu_millicores (or_default (Some "") "0") = VStr "0".
Proof.
  split; [| split; [| repeat split; vm_compute; reflexivity]].
  - intros s p Hn Hp.
    assert (Hpod := pod_millicores_nanocores s p Hn Hp).
    split; [| split; [exact Hpod |]].
    + unfold node_cpu_millicores. rewrite Hn, Hp, node_round_nanocores. reflexivity.
    + destruct (round_fixed2_shape (to_double (p # 1000000))) as [z Hz].
      exists z. rewrite Hpod, Hz. split; [reflexivity |].
      rewrite <- Hz. apply round_fixed2_close.
  - intros s Hn Hp. unfold node_cpu_millicores, pod_cpu_millicores.
    rewrite Hn, Hp. split; reflexivity.
Qed.

(** ** C9 *)


(** C9 (code bug): a node whose memory usage is the plain byte count
    "1000" gets bytes = the string "1000" from getNodeMetrics, which passes
    non-Ki quantities through unparsed; the sibling pod path parses the
    same string to the number 1000.  Ki quantities and the empty value are
    handled as the claim says on the pod path. *)
Lemma C9_node_memory_unparsed :
  option_map ns_bytes (own "node-1" (getNodeMetrics (Resolves (Some (LArray [c9_node_metric]))))) =
    Some (VStr "1000") /\
  pod_memory_bytes "1000" = fin 1000 /\
  node_memory_bytes "1024Ki" = VNum (fin 1048576) /\
  pod_memory_bytes "1024Ki" = fin 1048576 /\
  pod_memory_bytes (memory_of (cm "0" "")) = fin 0.
Proof. repeat split; reflexivity. Qed.

(** ** C5 and C6: the aggregate counter *)





Lemma own_set_same {A} (k : string) (v : A) (m : obj A) : own k (set k v m) = Some v.
Proof.
  induction m as [|[k' v'] m IH]; simpl; [rewrite String.eqb_refl; reflexivity |].
  destruct (String.eqb k k') eqn:E; simpl; [rewrite String.eqb_refl | rewrite E]; auto.
Qed.

Lemma sum_set_new (k : string) (v : phase_counts) (m : obj phase_counts) :
  own k m = None -> sum_totals (set k v m) = (sum_totals m + total v)%Z.
Proof.
  induction m as [|[k' v'] m IH]; simpl; [lia |].
  destruct (String.eqb k k'); [discriminate |]. intro H. simpl. rewrite IH by exact H. lia.
Qed.

Lemma sum_set_old (k : string) (c v : phase_counts) (m : obj phase_counts) :
  own k m = Some c -> sum_totals (set k v m) = (sum_totals m - total c + total v)%Z.
Proof.
  induction m as [|[k' v'] m IH]; simpl; [discriminate |].
  destruct (String.eqb k k'); intro H; simpl.
  - injection H as ->. lia.
  - rewrite IH by exact H. lia.
Qed.

Lemma inv_set (k : string) (v : phase_counts) (m : obj phase_counts) :
  counter_inv m -> proto_key k = false -> wf_counts v -> counter_inv (set k v m).
Proof.
  unfold counter_inv. induction m as [|[k' v'] m IH]; simpl; intros H Hk Hv.
  - constructor; [split; assumption | constructor].
  - inversion H as [|? ? Hh Ht]; subst.
    destruct (String.eqb k k'); constructor; simpl; auto.
Qed.

Lemma inv_own_proto (k : string) (m : obj phase_counts) :
  counter_inv m -> proto_key k = true -> own k m = None.
Proof.
  unfold counter_inv. induction m as [|[k' v'] m IH]; simpl; intros H Hk; [reflexivity |].
  inversion H as [|? ? [Hp _] Ht]; subst. simpl in Hp.
  destruct (String.eqb k k') eqn:E.
  - apply String.eqb_eq in E. subst. congruence.
  - auto.
Qed.

Lemma inv_own_wf (k : string) (c : phase_counts) (m : obj phase_counts) :
  counter_inv m -> own k m = Some c -> wf_counts c.
Proof.
  unfold counter_inv. induction m as [|[k' v'] m IH]; simpl; intros H Hk; [discriminate |].
  inversion H as [|? ? [_ Hw] Ht]; subst.
  destruct (String.eqb k k'); [injection Hk as <-; exact Hw | auto].
Qed.

Lemma bump_wf (ph : option string) (c : phase_counts) :
  wf_counts c -> wf_counts (bump ph c) /\ total (bump ph c) = (total c + 1)%Z.
Proof.
  unfold wf_counts, bump. intros [[? [? [? ?]]] ?].
  destruct (opt_is ph "Running"); [simpl; lia |].
  destruct (opt_is ph "Pending"); [simpl; lia |].
  destruct (opt_is ph "Failed"); [simpl; lia |].
  destruct (opt_is ph "Succeeded"); simpl; lia.
Qed.

Lemma count_step_spec (key : pod -> option string) (m : obj phase_counts) (p : pod) :
  counter_inv m ->
  counter_inv (count_step key m p) /\
  sum_totals (count_step key m p) = (sum_totals m + if counted key p then 1 else 0)%Z.
Proof.
  intro Hinv. unfold count_step, counted.
  destruct (key p) as [k|]; [| split; [exact Hinv | lia]].
  destruct (str_truthy k); simpl; [| split; [exact Hinv | lia]].
  destruct (proto_key k) eqn:Hp; simpl.
  - pose proof (inv_own_proto k m Hinv Hp) as Ho.
    unfold get, proto_key in *. rewrite Ho, Hp. cbv iota beta. rewrite ?Ho, ?Hp.
    split; [exact Hinv | lia].
  - unfold proto_key in Hp.
    destruct (own k m) as [c|] eqn:Ho.
    + assert (G1 : get k m = Own c) by (unfold get; rewrite Ho; reflexivity).
      rewrite G1. cbv iota beta. rewrite G1. cbv iota beta.
      destruct (bump_wf (p_phase p) c (inv_own_wf k c m Hinv Ho)) as [Hw Ht].
      split; [apply inv_set; assumption |].
      rewrite (sum_set_old k c _ m Ho), Ht. lia.
    + assert (G0 : get k m = Undef) by (unfold get; rewrite Ho, Hp; reflexivity).
      assert (G2 : get k (set k counts0 m) = Own counts0)
        by (unfold get; rewrite own_set_same; reflexivity).
      rewrite G0. cbv iota beta. rewrite G2. cbv iota beta.
      assert (Hw0 : wf_counts counts0) by (unfold wf_counts; simpl; lia).
      destruct (bump_wf (p_phase p) counts0 Hw0) as [Hw Ht].
      split; [apply inv_set; [apply inv_set|..]; assumption |].
      rewrite (sum_set_old k counts0 _ _ (own_set_same k counts0 m)), sum_set_new by exact Ho.
      rewrite Ht. simpl. lia.
Qed.

(** The counter is right for every group key that is not the name of an
    Object.prototype member: every own entry has running + pending + failed
    + succeeded <= total, and the totals add up to the number of pods whose
    key is non-empty and not such a name. *)
Lemma count_pods_sound (key : pod -> option string) (l : list pod) :
  counter_inv (count_pods key (Resolves (LArray l))) /\
  sum_totals (count_pods key (Resolves (LArray l))) = Z.of_nat (length (filter (counted key) l)).
Proof.
  unfold count_pods.
  assert (G : forall m, counter_inv m ->
            counter_inv (fold_left (count_step key) l m) /\
            sum_totals (fold_left (count_step key) l m) =
              (sum_totals m + Z.of_nat (length (filter (counted key) l)))%Z).
  { induction l as [|p l IH]; intros m Hm; simpl; [split; [exact Hm | lia] |].
    destruct (count_step_spec key m p Hm) as [Hi Hs].
    destruct (IH _ Hi) as [Hi' Hs']. split; [exact Hi' |]. rewrite Hs', Hs.
    destruct (counted key p); simpl length; lia. }
  destruct (G [] (Forall_nil _)) as [Hi Hs]. split; [exact Hi | rewrite Hs; reflexivity].
Qed.

(** A queried group that is no pod's key and not a prototype member name
    gets the zero-valued counts. *)
Lemma pods_of_absent (name : string) (m : obj phase_counts) :
  own name m = None -> proto_key name = false -> pods_of (Some name) m = PCounts counts0.
Proof. intros Ho Hp. unfold pods_of, get, show_opt. rewrite Ho. unfold proto_key in Hp. rewrite Hp. reflexivity. Qed.


(** C5 (code bug): a pod scheduled on a node named "constructor" (a valid
    node name) has a resolvable group key but is counted in no group:
    [podsByNode["constructor"]] reads the inherited Object constructor, so
    no entry is created and the sum of totals is 0, not 1.  The same holds
    for the namespace counter and a namespace named "constructor". *)
Lemma C5_constructor_key_uncounted :
  count_pods node_key (Resolves (LArray [c5_pod "constructor" "default"])) = [] /\
  sum_totals (count_pods node_key (Resolves (LArray [c5_pod "constructor" "default"]))) = 0%Z /\
  length (filter (has_key node_key) [c5_pod "constructor" "default"]) = 1%nat /\
  sum_totals (count_pods namespace_key (Resolves (LArray [c5_pod "node-1" "constructor"]))) = 0%Z /\
  length (filter (has_key namespace_key) [c5_pod "node-1" "constructor"]) = 1%nat.
Proof. repeat split; reflexivity. Qed.

(** C6 (code bug): a node named "constructor" with no pods gets as its
    [pods] field the inherited Object constructor (a function, dropped from
    the JSON response), not the zero-valued counts; likewise for a
    namespace named "constructor". *)
Lemma C6_constructor_group_not_zeroed :
  getAllNodes (Returns (LArray [{| n_name := Some "constructor" |}]))
              (Rejects "metrics unavailable") (Resolves (LArray [])) =
    Ok [{| no_name := Some "constructor"; no_pods := PProto "constructor";
           no_metrics := NMProto "constructor" |}] /\
  getAllNamespaces (Returns (LArray [{| ns_name := Some "constructor"; ns_phase := Some "Active" |}]))
                   (Resolves (LArray [])) =
    Ok [{| nso_name := Some "constructor"; nso_status := "Active"; nso_pods := PProto "constructor" |}].
Proof. split; reflexivity. Qed.

(** ** C3 and C10: the stream bridge *)






Create HintDb bridge.

Lemma rs_eqb_open (r : ready_state) : rs_eqb r OPEN = true -> r = OPEN.
Proof. destruct r; simpl; congruence. Qed.

Lemma ext_same (w w' : world) : calls w' = calls w -> appends_only_open_calls w w'.
Proof. intro H. exists []. rewrite app_nil_r. auto. Qed.

Lemma ext_trans (w1 w2 w3 : world) :
  appends_only_open_calls w1 w2 -> appends_only_open_calls w2 w3 -> appends_only_open_calls w1 w3.
Proof.
  intros (e1 & H1 & F1) (e2 & H2 & F2). exists (e1 ++ e2)%list.
  rewrite H2, H1, app_assoc. split; [reflexivity | apply Forall_app; auto].
Qed.

Lemma ext_refl w : appends_only_open_calls w w.
Proof. apply ext_same. reflexivity. Qed.

Lemma ext_when_open (f : world -> world) (w : world) :
  (ws w = OPEN -> appends_only_open_calls w (f w)) -> appends_only_open_calls w (when_open f w).
Proof.
  intro H. unfold when_open. destruct (rs_eqb (ws w) OPEN) eqn:E.
  - apply H, rs_eqb_open, E.
  - apply ext_refl.
Qed.

Lemma ext_send d w : ws w = OPEN -> appends_only_open_calls w (ws_send d w).
Proof. intro H. exists [(ws w, WsSend d)]. simpl. rewrite H. auto. Qed.

Lemma ext_close c r w : ws w = OPEN -> appends_only_open_calls w (ws_close c r w).
Proof. intro H. exists [(ws w, WsClose c r)]. simpl. rewrite H. auto. Qed.

Lemma ext_when_open_send d w : appends_only_open_calls w (when_open (ws_send d) w).
Proof. apply ext_when_open, ext_send. Qed.

Lemma ext_when_open_close c r w : appends_only_open_calls w (when_open (ws_close c r) w).
Proof. apply ext_when_open, ext_close. Qed.

Lemma ext_close_1011 m w : appends_only_open_calls w (close_1011 m w).
Proof. apply ext_when_open_close. Qed.

Lemma ext_send_then_close c r d w :
  appends_only_open_calls w (when_open (fun w0 => ws_close c r (ws_send d w0)) w).
Proof.
  apply ext_when_open. intro H. apply ext_trans with (ws_send d w); [apply ext_send, H |].
  apply ext_close. exact H.
Qed.

Lemma calls_stdin_end w : calls (stdin_end w) = calls w.
Proof. unfold stdin_end. destruct (stdin_writable w); reflexivity. Qed.
Lemma calls_stdout_destroy w : calls (stdout_destroy w) = calls w.
Proof. unfold stdout_destroy. destruct (stdout_readable w); reflexivity. Qed.
Lemma calls_stderr_destroy w : calls (stderr_destroy w) = calls w.
Proof. unfold stderr_destroy. destruct (stderr_readable w); reflexivity. Qed.
Lemma ext_set_ws rs w : appends_only_open_calls w (set_ws rs w).
Proof. apply ext_same. reflexivity. Qed.
Lemma ext_emit rc w : appends_only_open_calls w (emit rc w).
Proof. apply ext_same. reflexivity. Qed.
Lemma ext_open_exec c cmd w : appends_only_open_calls w (open_exec c cmd w).
Proof. apply ext_same. reflexivity. Qed.
Lemma ext_stdin_end w : appends_only_open_calls w (stdin_end w).
Proof. apply ext_same, calls_stdin_end. Qed.
Lemma ext_client_close_term w :
  appends_only_open_calls w (stderr_destroy (stdout_destroy (stdin_end (set_ws CLOSED w)))).
Proof.
  apply ext_same. rewrite calls_stderr_destroy, calls_stdout_destroy, calls_stdin_end.
  reflexivity.
Qed.
Lemma ext_client_close_log w :
  appends_only_open_calls w (emit LogAbort (emit LogStreamEnd (set_ws CLOSED w))).
Proof. apply ext_same. reflexivity. Qed.
Lemma ext_stdin_write d w :
  appends_only_open_calls w (if stdin_writable w then emit (StdinWrite d) w else w).
Proof. destruct (stdin_writable w); [apply ext_emit | apply ext_refl]. Qed.

#[local] Hint Resolve ext_refl ext_when_open_send ext_when_open_close ext_close_1011
  ext_send_then_close ext_set_ws ext_emit ext_open_exec ext_stdin_end
  ext_client_close_term ext_client_close_log ext_stdin_write : bridge.

Lemma step_ext (s : session) (e : event) : appends_only_open_calls (sw s) (sw (step s e)).
Proof.
  destruct s as [w p pn cmd]. unfold step. cbn [sw ph podName command].
  destruct e; destruct p; cbn [sw with_world]; auto with bridge;
    match goal with
    | |- context [resolve_container ?n ?r] => destruct (resolve_container n r)
    | |- context [match ?f with Rejects _ => _ | Resolves _ => _ end] => destruct f
    end; cbn [sw with_world]; auto with bridge.
Qed.

Lemma run_ext (es : list event) (s : session) : appends_only_open_calls (sw s) (sw (run s es)).
Proof.
  revert s. induction es as [|e es IH]; intro s; simpl; [apply ext_refl |].
  apply ext_trans with (sw (step s e)); [apply step_ext | apply IH].
Qed.

Lemma when_open_not_open (f : world -> world) (w : world) :
  rs_eqb (ws w) OPEN = false -> when_open f w = w.
Proof. intro H. unfold when_open. rewrite H. reflexivity. Qed.

(** With the socket not OPEN, no handler makes a client call. *)
Lemma step_calls_not_open (s : session) (e : event) :
  rs_eqb (ws (sw s)) OPEN = false -> calls (sw (step s e)) = calls (sw s).
Proof.
  destruct s as [w p pn cmd]. cbn [sw]. intro H. unfold step, close_1011.
  cbn [sw ph podName command].
  destruct e; destruct p; cbn [sw with_world];
    try match goal with
    | |- context [resolve_container ?n ?r] => destruct (resolve_container n r)
    | |- context [match ?f with Rejects _ => _ | Resolves _ => _ end] => destruct f
    end; cbn [sw with_world];
    rewrite ?(when_open_not_open _ w H), ?calls_stderr_destroy, ?calls_stdout_destroy,
      ?calls_stdin_end; try reflexivity;
    destruct (stdin_writable w); reflexivity.
Qed.

Lemma start_terminal_ext w pn cn sh : appends_only_open_calls w (sw (start_terminal w pn cn sh)).
Proof. unfold start_terminal. destruct (truthy_opt cn); cbn [sw]; auto with bridge. Qed.

Lemma start_logs_ext w pn cn : appends_only_open_calls w (sw (start_logs w pn cn)).
Proof. unfold start_logs. destruct (truthy_opt cn); cbn [sw]; auto with bridge. Qed.

(** Phases and remote calls along a trace before the pod read completes,
    and after a failed setup. *)
Lemma step_podName s e : podName (step s e) = podName s.
Proof.
  destruct s as [w p pn cmd]. unfold step. cbn [sw ph podName command].
  destruct e; destruct p; try reflexivity;
    try match goal with
    | |- context [resolve_container ?n ?r] => destruct (resolve_container n r)
    | |- context [match ?f with Rejects _ => _ | Resolves _ => _ end] => destruct f
    end; reflexivity.
Qed.

Lemma close_1011_remote m w : remote (close_1011 m w) = remote w.
Proof. unfold close_1011, when_open. destruct (rs_eqb (ws w) OPEN); reflexivity. Qed.

Lemma step_await_read s e :
  ph s = TermAwaitRead -> is_read_done e = false ->
  ph (step s e) = TermAwaitRead /\ remote (sw (step s e)) = remote (sw s).
Proof.
  destruct s as [w p pn cmd]. cbn [ph]. intros -> He.
  destruct e; try discriminate He; split; reflexivity.
Qed.

Lemma run_await_read s pre :
  ph s = TermAwaitRead -> forallb (fun e => negb (is_read_done e)) pre = true ->
  ph (run s pre) = TermAwaitRead /\ remote (sw (run s pre)) = remote (sw s) /\
  podName (run s pre) = podName s.
Proof.
  revert s. induction pre as [|e pre IH]; intros s Hp Hpre; [auto |].
  simpl in Hpre. apply andb_prop in Hpre as [He Hpre]. apply negb_true_iff in He.
  simpl. destruct (step_await_read s e Hp He) as [Hp' Hr'].
  destruct (IH (step s e) Hp' Hpre) as (H1 & H2 & H3).
  rewrite H2, Hr', H3, step_podName. auto.
Qed.

Lemma step_finished s e :
  ph s = Finished -> ph (step s e) = Finished /\ remote (sw (step s e)) = remote (sw s).
Proof.
  destruct s as [w p pn cmd]. cbn [ph]. intros ->.
  destruct e; split; reflexivity.
Qed.

Lemma run_finished s post :
  ph s = Finished -> ph (run s post) = Finished /\ remote (sw (run s post)) = remote (sw s).
Proof.
  revert s. induction post as [|e post IH]; intros s Hp; [auto |].
  simpl. destruct (step_finished s e Hp) as [Hp' Hr'].
  destruct (IH _ Hp') as [H1 H2]. rewrite H2, Hr'. auto.
Qed.

(** C10: in both sessions, whatever happens, every send and every close made
    on the client socket is made while it is OPEN, and once it has left the
    OPEN state no event (remote stdout, stderr or log data, the exit
    callback, setup and stream errors) leads to any client call. *)
Theorem C10_client_calls_only_when_open :
  (forall w pn cn sh es, appends_only_open_calls w (sw (run (start_terminal w pn cn sh) es))) /\
  (forall w pn cn es, appends_only_open_calls w (sw (run (start_logs w pn cn) es))) /\
  (forall s e, rs_eqb (ws (sw s)) OPEN = false -> calls (sw (step s e)) = calls (sw s)).
Proof.
  split; [| split].
  - intros. eapply ext_trans; [apply start_terminal_ext | apply run_ext].
  - intros. eapply ext_trans; [apply start_logs_ext | apply run_ext].
  - apply step_calls_not_open.
Qed.

(** Stdout bytes arriving after the client started closing are dropped. *)
Lemma C10_witness :
  rs_eqb (ws (sw (run (start_terminal fresh_world "web-1" None None)
                    [EvReadDone (Resolves {| body := Some {| b_spec := Some
                       {| sp_containers := Some [{| c_name := Some "app"; c_resources := None |}] |} |} |});
                     EvExecDone (Resolves tt); EvWsState CLOSING]))) OPEN = false /\
  calls (sw (step (run (start_terminal fresh_world "web-1" None None)
                    [EvReadDone (Resolves {| body := Some {| b_spec := Some
                       {| sp_containers := Some [{| c_name := Some "app"; c_resources := None |}] |} |} |});
                     EvExecDone (Resolves tt); EvWsState CLOSING]) (EvStdoutData "late")))
  = calls (sw (run (start_terminal fresh_world "web-1" None None)
                    [EvReadDone (Resolves {| body := Some {| b_spec := Some
                       {| sp_containers := Some [{| c_name := Some "app"; c_resources := None |}] |} |} |});
                     EvExecDone (Resolves tt); EvWsState CLOSING])).
Proof.
  split; [reflexivity |].
  apply (proj2 (proj2 C10_client_calls_only_when_open)). reflexivity.
Defined.

(** C3 (counterexample): the client starts closing while the pod is being
    read; the pod has no containers; the setup fails without any close call
    from the server, since the close is guarded by readyState OPEN. *)
Lemma C3_closing_client_not_closed :
  ph (run (start_terminal fresh_world "web-1" None None) [EvWsState CLOSING; EvReadDone empty_pod_resp])
    = Finished /\
  calls (sw (run (start_terminal fresh_world "web-1" None None)
               [EvWsState CLOSING; EvReadDone empty_pod_resp])) = [].
Proof. split; reflexivity. Qed.

(** C3 (amended): a terminal session started with no container name on a
    pod with [spec.containers: []] fails when the pod read completes; if the
    client socket is still OPEN at that moment it is closed with code 1011
    and "Error setting up exec: No containers found in pod: <name>",
    otherwise no call is made on it; in both cases no exec channel is ever
    opened, whatever happens afterwards. *)
Theorem C3_empty_containers_setup_fails (w : world) (pn : string) (cn sh : option string)
    (pre post : list event) :
  truthy_opt cn = false ->
  forallb (fun e => negb (is_read_done e)) pre = true ->
  existsb is_exec_open (remote w) = false ->
  let s0 := run (start_terminal w pn cn sh) pre in
  let s1 := step s0 (EvReadDone empty_pod_resp) in
  ph s1 = Finished /\
  calls (sw s1) =
    (calls (sw s0) ++
     (if rs_eqb (ws (sw s0)) OPEN
      then [(OPEN, WsClose (Some 1011%Z)
                     (Some ("Error setting up exec: No containers found in pod: " ++ pn)%string))]
      else []))%list /\
  existsb is_exec_open (remote (sw (run s1 post))) = false.
Proof.
  intros Hcn Hpre Hw s0 s1.
  assert (Hs : ph (start_terminal w pn cn sh) = TermAwaitRead /\
               remote (sw (start_terminal w pn cn sh)) = (remote w ++ [ReadPod pn])%list /\
               podName (start_terminal w pn cn sh) = pn)
    by (unfold start_terminal; rewrite Hcn; auto).
  destruct Hs as (Hph & Hrem & Hpn).
  destruct (run_await_read _ pre Hph Hpre) as (Hph0 & Hrem0 & Hpn0).
  fold s0 in Hph0, Hrem0, Hpn0.
  assert (Hs1 : s1 = with_world s0
                  (close_1011 ("Error setting up exec: No containers found in pod: " ++ pn)%string (sw s0))
                  Finished).
  { unfold s1, step. rewrite Hph0. unfold resolve_container, empty_pod_resp; cbn.
    rewrite Hpn0, Hpn. reflexivity. }
  assert (Hfin : ph s1 = Finished) by (rewrite Hs1; reflexivity).
  split; [exact Hfin | split].
  - rewrite Hs1. cbn [sw with_world]. unfold close_1011, when_open.
    destruct (rs_eqb (ws (sw s0)) OPEN) eqn:E; [| symmetry; apply app_nil_r].
    apply rs_eqb_open in E. cbn [calls ws_close]. rewrite E. reflexivity.
  - destruct (run_finished s1 post Hfin) as [_ Hr]. rewrite Hr, Hs1.
    cbn [sw with_world]. rewrite close_1011_remote, Hrem0, Hrem.
    rewrite existsb_app, Hw. reflexivity.
Qed.

Lemma C3_witness :
  truthy_opt None = false /\
  forallb (fun e => negb (is_read_done e)) [EvWsState CLOSING] = true /\
  existsb is_exec_open (remote fresh_world) = false /\
  ph (step (run (start_terminal fresh_world "web-1" None None) [EvWsState CLOSING])
        (EvReadDone empty_pod_resp)) = Finished.
Proof.
  split; [reflexivity | split; [reflexivity | split; [reflexivity |]]].
  exact (proj1 (C3_empty_containers_setup_fails fresh_world "web-1" None None
                  [EvWsState CLOSING] [EvClientClose] eq_refl eq_refl eq_refl)).
Defined.

(** ** Witnesses *)

Lemma C4_witness :
  fetch_failed (Rejects (A := metrics_response pod_metric) "connect ECONNREFUSED") /\
  exists outs, getAllPods None (Returns (LArray [mkpod [] [ctr None None]]))
                 (Rejects "connect ECONNREFUSED") = Ok outs /\
    length outs = 1%nat /\ Forall (fun o => o_metrics o = MNull) outs.
Proof.
  split; [simpl; exact I |].
  exact (proj2 (C4_metrics_failure_degrades [mkpod [] [ctr None None]]
                  (Rejects "connect ECONNREFUSED") None I)).
Defined.

Lemma C2_witness :
  Forall2 (fun c k => ends_with "Ki" (memory_of c) = true /\
             parseInt (slice_drop_end 2 (memory_of c)) = fin (inject_Z k))
    (cms c2_metric) [1%Z; 1%Z] /\
  mem_bytes (pod_sample_of c2_metric) = fin (inject_Z (1024 * fold_right Z.add 0%Z [1%Z; 1%Z])).
Proof.
  assert (H : Forall2 (fun c k => ends_with "Ki" (memory_of c) = true /\
             parseInt (slice_drop_end 2 (memory_of c)) = fin (inject_Z k))
    (cms c2_metric) [1%Z; 1%Z]).
  { simpl. repeat constructor. }
  split; [exact H |].
  exact (proj2 (proj2 (C2_sample_sums_normalised_values c2_metric)) [1%Z; 1%Z] H).
Defined.

Lemma C8_witness :
  ends_with "n" "1005000n" = true /\
  parseInt (slice_drop_end 1 "1005000n") = fin (inject_Z 1005000) /\
  pod_cpu_millicores "1005000n" = fin (round_fixed 2 (to_double (1005000 # 1000000))).
Proof.
  split; [reflexivity | split; [reflexivity |]].
  exact (proj1 (proj2 (proj1 C8_cpu_normalisation "1005000n" 1005000%Z eq_refl eq_refl))).
Defined.

(* ================================================================== *)
(** * Further properties of the services, controllers and socket routes *)

(** ** Strings *)

Lemma str_app_assoc (a b c : string) : ((a ++ b) ++ c)%string = (a ++ (b ++ c))%string.
Proof. induction a as [|x a IH]; simpl; [reflexivity | rewrite IH; reflexivity]. Qed.

Lemma strip_prefix_some (p s r : string) : strip_prefix p s = Some r -> s = (p ++ r)%string.
Proof.
  revert s; induction p as [|c p IH]; intros s H; simpl in *.
  - congruence.
  - destruct s as [|d s]; [discriminate |].
    destruct (Ascii.eqb c d) eqn:E; [| discriminate].
    apply Ascii.eqb_eq in E; subst. f_equal. auto.
Qed.

Lemma take_seg_spec (s a b : string) : take_seg s = (a, b) ->
  s = (a ++ b)%string /\ all_path_chars a = true /\
  match b with String c _ => path_char c = false | EmptyString => True end.
Proof.
  revert a b; induction s as [|c r IH]; intros a b H; simpl in H.
  - injection H as <- <-. simpl. auto.
  - destruct (path_char c) eqn:Hc.
    + destruct (take_seg r) as [a' b'] eqn:E. injection H as <- <-.
      destruct (IH _ _ eq_refl) as (-> & Ha & Hb). simpl. rewrite Hc, Ha. auto.
    + injection H as <- <-. simpl. auto.
Qed.

Lemma split_on_app (c : ascii) (a b : string) :
  no_char c a = true -> split_on c (a ++ String c b) = a :: split_on c b.
Proof.
  induction a as [|d a IH]; simpl; intro H.
  - rewrite Ascii.eqb_refl. reflexivity.
  - apply andb_prop in H as [Hd H]. rewrite IH by exact H.
    destruct (Ascii.eqb d c); [discriminate | reflexivity].
Qed.


(** ** Socket routes *)

Lemma match_pod_path_inv (sfx p ns pod : string) :
  match_pod_path sfx p = Some (ns, pod) ->
  p = pod_path ns pod sfx /\ ns <> "" /\ pod <> "" /\
  all_path_chars ns = true /\ all_path_chars pod = true.
Proof.
  unfold match_pod_path.
  destruct (strip_prefix "/api/namespaces/" p) as [r|] eqn:E1; [| discriminate].
  destruct (take_seg r) as [a r1] eqn:E2.
  destruct (String.eqb a "") eqn:E3; [discriminate |].
  destruct (strip_prefix "/pods/" r1) as [r2|] eqn:E4; [| discriminate].
  destruct (take_seg r2) as [b r3] eqn:E5.
  destruct (String.eqb b "") eqn:E6; [discriminate |].
  destruct (String.eqb r3 sfx) eqn:E7; [| discriminate].
  intro H. injection H as <- <-.
  apply strip_prefix_some in E1. apply strip_prefix_some in E4.
  apply take_seg_spec in E2 as (-> & Ha & _). apply take_seg_spec in E5 as (-> & Hb & _).
  apply String.eqb_eq in E7. apply String.eqb_neq in E3. apply String.eqb_neq in E6.
  subst. unfold pod_path. repeat split; auto.
Qed.

Lemma pod_connection_not_missing (sfx p : string) :
  pod_connection sfx p <> WsReject 1008 "Namespace and pod name are required".
Proof.
  unfold pod_connection. destruct (match_pod_path sfx p) as [[a b]|] eqn:E; [| discriminate].
  destruct (match_pod_path_inv _ _ _ _ E) as (_ & Ha & Hb & _).
  unfold str_truthy. apply String.eqb_neq in Ha. apply String.eqb_neq in Hb.
  rewrite Ha, Hb. discriminate.
Qed.



Lemma prefix_app (p s : string) : String.prefix p (p ++ s) = true.
Proof.
  induction p as [|c p IH]; simpl; [destruct s; reflexivity |].
  destruct (ascii_dec c c); [exact IH | congruence].
Qed.

Lemma includes_prefix (p s : string) : String.prefix p s = true -> includes p s = true.
Proof. intro H. destruct s as [|c r]; cbn [includes]; rewrite H; reflexivity. Qed.

Lemma includes_app (p a b : string) : includes p (a ++ p ++ b) = true.
Proof.
  induction a as [|c a IH].
  - apply includes_prefix. exact (prefix_app p b).
  - cbn [includes append]. rewrite IH, orb_true_r. reflexivity.
Qed.

(** ** Trimming *)

Lemma trim_start_idem (s : string) : trim_start (trim_start s) = trim_start s.
Proof.
  induction s as [|c s IH]; simpl; [reflexivity |].
  destruct (is_ws c) eqn:E; [exact IH | simpl; rewrite E; reflexivity].
Qed.

Lemma trim_end_idem (s : string) : trim_end (trim_end s) = trim_end s.
Proof.
  induction s as [|c s IH]; simpl; [reflexivity |].
  destruct (is_ws c && String.eqb (trim_end s) "") eqn:E; [reflexivity |].
  simpl. rewrite IH, E. reflexivity.
Qed.

Lemma trim_start_head (s : string) :
  match trim_start s with String c _ => is_ws c = false | EmptyString => True end.
Proof.
  induction s as [|c s IH]; simpl; [exact I |].
  destruct (is_ws c) eqn:E; [exact IH | exact E].
Qed.

Lemma trim_start_trim_end (t : string) :
  match t with String c _ => is_ws c = false | EmptyString => True end ->
  trim_start (trim_end t) = trim_end t.
Proof.
  destruct t as [|c r]; simpl; [reflexivity |]. intro H. rewrite H. simpl. rewrite H. reflexivity.
Qed.

Lemma trim_idem (s : string) : trim (trim s) = trim s.
Proof.
  unfold trim. rewrite (trim_start_trim_end (trim_start s) (trim_start_head s)).
  apply trim_end_idem.
Qed.



Lemma valid_name_trim (name : string) :
  blank_param name = false -> valid_name (AStr (trim name)) = Some (trim name).
Proof.
  unfold blank_param, valid_name, str_truthy. intro H.
  apply Bool.orb_false_iff in H as [_ H]. rewrite trim_idem, H. reflexivity.
Qed.


Lemma default_arg_idem (d : string) (a : arg) : default_arg d (default_arg d a) = default_arg d a.
Proof. destruct a; reflexivity. Qed.

(** ** Per-key view of the aggregate counter *)

Lemma own_set_other {A} (k k' : string) (v : A) (m : obj A) :
  k <> k' -> own k (set k' v m) = own k m.
Proof.
  intro Hne. apply String.eqb_neq in Hne.
  induction m as [|[k'' v''] m IH]; simpl.
  - rewrite Hne. reflexivity.
  - destruct (String.eqb k' k'') eqn:E; simpl.
    + apply String.eqb_eq in E. subst k''. rewrite Hne. reflexivity.
    + rewrite IH. reflexivity.
Qed.

Lemma count_step_own (key : pod -> option string) (k : string) (m : obj phase_counts) (p : pod) :
  str_truthy k = true -> proto_key k = false ->
  own k (count_step key m p) =
  if match key p with Some k' => String.eqb k' k | None => false end
  then Some (bump (p_phase p) (match own k m with Some c => c | None => counts0 end))
  else own k m.
Proof.
  intros Ht Hp. unfold count_step.
  destruct (key p) as [k'|]; [| reflexivity].
  destruct (String.eqb k' k) eqn:E.
  - apply String.eqb_eq in E. subst k'. rewrite Ht.
    destruct (own k m) as [c|] eqn:Ho.
    + assert (G : get k m = Own c) by (unfold get; rewrite Ho; reflexivity).
      rewrite G. cbv iota beta. rewrite G. apply own_set_same.
    + assert (G0 : get k m = Undef) by (unfold get, proto_key in *; rewrite Ho, Hp; reflexivity).
      assert (G1 : get k (set k counts0 m) = Own counts0)
        by (unfold get; rewrite own_set_same; reflexivity).
      rewrite G0. cbv iota beta. rewrite G1. apply own_set_same.
  - assert (Hne : k <> k') by (intro H; subst; rewrite String.eqb_refl in E; discriminate).
    destruct (str_truthy k'); [| reflexivity].
    remember (match get k' m with Undef => set k' counts0 m | _ => m end) as m1 eqn:Hm1.
    assert (H1 : own k m1 = own k m)
      by (subst m1; destruct (get k' m); [reflexivity | reflexivity | apply own_set_other; exact Hne]).
    destruct (get k' m1); [rewrite own_set_other by exact Hne |..]; exact H1.
Qed.

Lemma count_fold_own (key : pod -> option string) (k : string) (l : list pod)
    (m : obj phase_counts) (c : phase_counts) :
  str_truthy k = true -> proto_key k = false ->
  own k m = Some c \/ (own k m = None /\ c = counts0) ->
  let c' := fold_left (fun c p => if match key p with Some k' => String.eqb k' k | None => false end
                                  then bump (p_phase p) c else c) l c in
  own k (fold_left (count_step key) l m) = Some c' \/
  (own k (fold_left (count_step key) l m) = None /\ c' = counts0).
Proof.
  intros Ht Hp. revert m c. induction l as [|p l IH]; intros m c H; simpl; [exact H |].
  apply IH. rewrite (count_step_own key k m p Ht Hp).
  destruct (match key p with Some k' => String.eqb k' k | None => false end).
  - left. destruct H as [-> | [-> ->]]; reflexivity.
  - exact H.
Qed.

Lemma pods_of_count (key : pod -> option string) (k : string) (l : list pod) :
  str_truthy k = true -> proto_key k = false ->
  pods_of (Some k) (count_pods key (Resolves (LArray l))) =
  PCounts (fold_left (fun c p => if match key p with Some k' => String.eqb k' k | None => false end
                                 then bump (p_phase p) c else c) l counts0).
Proof.
  intros Ht Hp. unfold count_pods, pods_of, show_opt, get.
  destruct (count_fold_own key k l [] counts0 Ht Hp (or_intror (conj eq_refl eq_refl)))
    as [-> | [-> ->]]; [reflexivity |].
  unfold proto_key in Hp. rewrite Hp. reflexivity.
Qed.

Lemma count_all_filter (f : pod -> bool) (l : list pod) (c : phase_counts) :
  fold_left (fun c p => bump (p_phase p) c) (filter f l) c =
  fold_left (fun c p => if f p then bump (p_phase p) c else c) l c.
Proof.
  revert c. induction l as [|p l IH]; intro c; simpl; [reflexivity |].
  destruct (f p); simpl; apply IH.
Qed.

Lemma str_truthy_trim (name : string) : blank_param name = false -> str_truthy (trim name) = true.
Proof.
  unfold blank_param, str_truthy. intro H. apply Bool.orb_false_iff in H as [_ H]. rewrite H.
  reflexivity.
Qed.

Lemma node_item_step_entry (m : obj node_sample) (nm : node_metric) :
  node_item_step m nm =
  match nm_name nm with
  | Some n => if str_truthy n then set n (me_sample (metrics_entry nm)) m else m
  | None => m
  end.
Proof. unfold node_item_step, metrics_entry. destruct (nm_name nm); reflexivity. Qed.

Lemma own_node_fold (k : string) (l : list node_metric) (m : obj node_sample) :
  str_truthy k = true ->
  own k (fold_left node_item_step l m) =
  fold_left (fun acc e => if opt_is (me_nodeName e) k then Some (me_sample e) else acc)
    (map metrics_entry l) (own k m).
Proof.
  intro Hk. revert m. induction l as [|nm l IH]; intro m; simpl; [reflexivity |].
  rewrite IH.
  assert (E : own k (node_item_step m nm) =
              (if opt_is (me_nodeName (metrics_entry nm)) k
               then Some (me_sample (metrics_entry nm)) else own k m)).
  { rewrite node_item_step_entry. cbn [me_nodeName metrics_entry].
    destruct (nm_name nm) as [n|]; [| reflexivity]. unfold opt_is.
    destruct (String.eqb n k) eqn:E.
    - apply String.eqb_eq in E. subst n. rewrite Hk. apply own_set_same.
    - destruct (str_truthy n); [| reflexivity].
      apply own_set_other. intro H. subst. rewrite String.eqb_refl in E. discriminate. }
  rewrite E. reflexivity.
Qed.

(** ** Socket routes *)

(** X2 (terminal and log socket connection handlers): neither handler ever
    closes with 1008 "Namespace and pod name are required"; a matched
    pathname always has two non-empty groups. *)
Theorem X2_missing_names_close_unreachable (p : string) :
  terminal_connection p <> WsReject 1008 "Namespace and pod name are required" /\
  log_connection p <> WsReject 1008 "Namespace and pod name are required".
Proof. split; apply pod_connection_not_missing. Qed.

(** ** Lookups by name *)

(** X4 (getNodeByName against getAllNodes): for a node name that is not an
    Object.prototype member, the pod counts the node controller returns for
    [name] are the [pods] field getAllNodes reports for the node named
    [name.trim()], given the same pod listing. *)
Theorem X4_node_detail_pods_match_listing (name : string) (readNode : string -> call node)
    (metrics : fetch (metrics_response node_metric)) (pods : fetch (js_list pod))
    (d : node_detail) (listing : call (js_list node)) (outs : list node_out) (o : node_out) :
  blank_param name = false -> proto_key (trim name) = false ->
  nodeByName_controller name readNode metrics pods = respond 200 (RData d) ->
  getAllNodes listing metrics pods = Ok outs -> In o outs -> no_name o = Some (trim name) ->
  no_pods o = PCounts (nd_pods d).
Proof.
  intros Hb Hp Hc Hl Hin Hn.
  unfold nodeByName_controller, respond in Hc. rewrite Hb in Hc.
  unfold getNodeByName in Hc. rewrite (valid_name_trim name Hb) in Hc.
  destruct (readNode (trim name)) as [e|n]; [discriminate |].
  injection Hc as <-. cbn [nd_pods].
  unfold getAllNodes in Hl. destruct listing as [m|[| |items]]; try discriminate.
  injection Hl as <-. apply in_map_iff in Hin as (n' & <- & _). cbn [no_name no_pods] in Hn |- *.
  rewrite Hn.
  destruct pods as [m|[| |l]];
    [apply (pods_of_absent _ [] eq_refl Hp) .. |].
  rewrite (pods_of_count node_key (trim name) l (str_truthy_trim name Hb) Hp). reflexivity.
Qed.

(** X5 (getNamespaceByName against getAllNamespaces): for a namespace name
    that is not an Object.prototype member, when listNamespacedPod returns
    the pods of the cluster listing that are in that namespace, the counts
    the namespace controller returns equal the [pods] field getAllNamespaces
    reports for that namespace. *)
Theorem X5_namespace_detail_pods_match_listing (name : string)
    (readNamespace : string -> call namespace) (listNamespacedPod : string -> fetch (js_list pod))
    (all : list pod) (d : namespace_detail) (listing : call (js_list namespace))
    (outs : list namespace_out) (o : namespace_out) :
  blank_param name = false -> proto_key (trim name) = false ->
  listNamespacedPod (trim name) =
    Resolves (LArray (filter (fun p => opt_is (p_namespace p) (trim name)) all)) ->
  namespaceByName_controller name readNamespace listNamespacedPod = respond 200 (RData d) ->
  getAllNamespaces listing (Resolves (LArray all)) = Ok outs -> In o outs ->
  nso_name o = Some (trim name) ->
  nso_pods o = PCounts (nsd_pods d).
Proof.
  intros Hb Hp Hlist Hc Hl Hin Hn.
  unfold namespaceByName_controller, respond in Hc. rewrite Hb in Hc.
  unfold getNamespaceByName in Hc. rewrite (valid_name_trim name Hb) in Hc.
  destruct (readNamespace (trim name)) as [e|n]; [discriminate |].
  injection Hc as <-. cbn [nsd_pods]. rewrite Hlist. unfold count_all.
  rewrite count_all_filter.
  unfold getAllNamespaces in Hl. destruct listing as [m|[| |items]]; try discriminate.
  injection Hl as <-. apply in_map_iff in Hin as (n' & <- & _). cbn [nso_name nso_pods] in Hn |- *.
  rewrite Hn. exact (pods_of_count namespace_key (trim name) all (str_truthy_trim name Hb) Hp).
Qed.

(** X6 (node controller getNodeByName): every failure of readNode becomes
    a 500 response, including a 404 from the API, whose message is
    "Node 'n' not found in the cluster" for the trimmed name n. *)
Theorem X6_node_controller_errors_500 (name : string) (readNode : string -> call node)
    (metrics : fetch (metrics_response node_metric)) (pods : fetch (js_list pod)) (e : api_error) :
  blank_param name = false -> readNode (trim name) = Fails e ->
  nodeByName_controller name readNode metrics pods =
  respond 500 (RError (if is_404 e then "Node '" ++ trim name ++ "' not found in the cluster"
                       else if is_conn_error e then cannot_connect
                       else "Failed to fetch node " ++ trim name ++ ": " ++ e_message e)).
Proof.
  intros Hb He. unfold nodeByName_controller, getNodeByName.
  rewrite Hb, (valid_name_trim name Hb), He. reflexivity.
Qed.

(** X7 (namespace controller getNamespaceByName): a 404 from readNamespace
    is answered 404 with "Namespace 'n' not found in the cluster", and a
    connection error (without status 404) is answered 502 with the
    cannot-connect message. *)
Theorem X7_namespace_controller_status (name : string) (readNamespace : string -> call namespace)
    (listNamespacedPod : string -> fetch (js_list pod)) (e : api_error) :
  blank_param name = false -> readNamespace (trim name) = Fails e ->
  (is_404 e = true ->
   namespaceByName_controller name readNamespace listNamespacedPod =
   respond 404 (RError ("Namespace '" ++ trim name ++ "' not found in the cluster"))) /\
  (is_404 e = false -> is_conn_error e = true ->
   namespaceByName_controller name readNamespace listNamespacedPod =
   respond 502 (RError cannot_connect)).
Proof.
  intros Hb He. unfold namespaceByName_controller, getNamespaceByName, namespace_error.
  rewrite Hb, (valid_name_trim name Hb), He. cbn [show_arg]. split.
  - intro H4. rewrite H4. unfold status_of_message.
    replace ("Namespace '" ++ trim name ++ "' not found in the cluster")%string
      with (("Namespace '" ++ trim name ++ "' ") ++ "not found" ++ " in the cluster")%string
      by (rewrite !str_app_assoc; reflexivity).
    rewrite includes_app. reflexivity.
  - intros H4 Hc. rewrite H4, Hc. reflexivity.
Qed.

(** X8 (getPodByName against getAllPods): when readNamespacedPod returns a
    pod whose metadata carries the requested trimmed name and namespace, the
    pod controller answers 200 with the same record transformPodData builds
    for that pod in the listing, metrics included. *)
Theorem X8_pod_detail_matches_listing_entry (name : string) (nsq : arg) (ns : string)
    (readNamespacedPod : string -> string -> call pod)
    (metrics : fetch (metrics_response pod_metric)) (p : pod) :
  blank_param name = false -> valid_name (default_arg "default" nsq) = Some ns ->
  readNamespacedPod (trim name) ns = Returns p ->
  p_name p = Some (trim name) -> p_namespace p = Some ns ->
  podByName_controller name nsq readNamespacedPod metrics =
  respond 200 (RData (transformPodData p (getPodMetrics metrics))).
Proof.
  intros Hb Hns Hr Hn Hnn. unfold podByName_controller, getPodByName.
  rewrite Hb, (valid_name_trim name Hb), default_arg_idem, Hns, Hr.
  assert (Hk : metrics_key p = (ns ++ "/" ++ trim name)%string)
    by (unfold metrics_key; rewrite Hn, Hnn; reflexivity).
  unfold transformPodData, resource_totals. rewrite Hk.
  destruct (match p_containers p with
            | Some cs => fold_left resource_step cs (res_zero, res_zero)
            | None => (res_zero, res_zero)
            end) as [rq lm].
  reflexivity.
Qed.

(** X9 (pod controller getPodByName): a 404 from readNamespacedPod is
    answered 404 with "Pod 'n' not found in namespace 'ns'", and a
    connection error (without status 404) is answered 502. *)
Theorem X9_pod_controller_status (name : string) (nsq : arg) (ns : string)
    (readNamespacedPod : string -> string -> call pod)
    (metrics : fetch (metrics_response pod_metric)) (e : api_error) :
  blank_param name = false -> valid_name (default_arg "default" nsq) = Some ns ->
  readNamespacedPod (trim name) ns = Fails e ->
  (is_404 e = true ->
   podByName_controller name nsq readNamespacedPod metrics =
   respond 404 (RError ("Pod '" ++ trim name ++ "' not found in namespace '" ++
                        show_arg (default_arg "default" nsq) ++ "'"))) /\
  (is_404 e = false -> is_conn_error e = true ->
   podByName_controller name nsq readNamespacedPod metrics = respond 502 (RError cannot_connect)).
Proof.
  intros Hb Hns He. unfold podByName_controller, getPodByName, pod_error.
  rewrite Hb, (valid_name_trim name Hb), default_arg_idem, Hns, He. cbn [show_arg]. split.
  - intro H4. rewrite H4. unfold status_of_message.
    replace ("Pod '" ++ trim name ++ "' not found in namespace '" ++
             show_arg (default_arg "default" nsq) ++ "'")%string
      with (("Pod '" ++ trim name ++ "' ") ++ "not found" ++
            (" in namespace '" ++ show_arg (default_arg "default" nsq) ++ "'"))%string
      by (rewrite !str_app_assoc; reflexivity).
    rewrite includes_app. reflexivity.
  - intros H4 Hc. rewrite H4, Hc. reflexivity.
Qed.

(** ** Node metrics *)

(** X10 (getAllNodeMetrics against getNodeMetrics): for the same array of
    node metrics and any non-empty node name, the entry getNodeMetrics keeps
    under that name is the sample of the last getAllNodeMetrics entry with
    that nodeName (none when no entry has it). *)
Theorem X10_node_metrics_views_agree (l : list node_metric) (k : string) :
  str_truthy k = true ->
  getAllNodeMetrics (Returns (Some (LArray l))) = Ok (map metrics_entry l) /\
  own k (getNodeMetrics (Resolves (Some (LArray l)))) = last_entry_for k (map metrics_entry l).
Proof.
  intro Hk. split; [reflexivity |].
  unfold getNodeMetrics, last_entry_for. rewrite own_node_fold by exact Hk. reflexivity.
Qed.

(** X11 (metrics controller getAllNodeMetrics): a connection error is
    answered 502, a 404 from the metrics API 503 with the install hint, and
    a listing without an items array 500. *)
Theorem X11_node_metrics_controller_status (e : api_error) :
  (is_conn_error e = true ->
   allNodeMetrics_controller (Fails e) = respond 502 (RError cannot_connect)) /\
  (is_conn_error e = false -> is_404 e = true ->
   allNodeMetrics_controller (Fails e) =
   respond 503 (RError "Metrics server is not available in the cluster. Please install metrics-server.")) /\
  (forall r : metrics_response node_metric,
   r = None \/ r = Some LAbsent \/ r = Some LNotArray ->
   allNodeMetrics_controller (Returns r) =
   respond 500 (RError "Failed to fetch node metrics: No node metrics found or invalid response format")).
Proof.
  unfold allNodeMetrics_controller, getAllNodeMetrics, node_metrics_error. split; [| split].
  - intro Hc. rewrite Hc. reflexivity.
  - intros Hc H4. rewrite Hc, H4. reflexivity.
  - intros r [-> | [-> | ->]]; reflexivity.
Qed.

(** ** Cluster metrics and cluster listing *)

Lemma ca_cpu_fold (l : list node_metric) (a : cl_acc) :
  ca_cpu (fold_left cluster_node_step l a) =
  fold_left (fun t nm => add t (cluster_cpu_of (node_cpu_usage nm))) l (ca_cpu a).
Proof. revert a. induction l as [|nm l IH]; intro a; simpl; [reflexivity |]. rewrite IH. reflexivity. Qed.

Lemma node_cpu_consistent (s : string) :
  ends_with "n" s = true -> node_cpu_millicores s = VNum (cluster_cpu_of s).
Proof. intro H. unfold node_cpu_millicores, cluster_cpu_of. rewrite H. reflexivity. Qed.

Lemma str_app_nil (s : string) : (s ++ "")%string = s.
Proof. induction s as [|c s IH]; simpl; [reflexivity | rewrite IH; reflexivity]. Qed.

Lemma digit_val_digit (d : Z) :
  (0 <= d <= 9)%Z -> digit_val false (ascii_of_nat (48 + Z.to_nat d)) = Some d.
Proof.
  intro H. assert (Hn : (Z.to_nat d < 10)%nat) by lia.
  replace (Some d) with (Some (Z.of_nat (Z.to_nat d))) by (f_equal; lia).
  generalize dependent (Z.to_nat d). intros n Hn.
  do 10 (destruct n as [|n]; [reflexivity |]). lia.
Qed.

Lemma digits_cons (hex : bool) (c : ascii) (r : string) (acc : Z) (cnt : nat) :
  digits hex (String c r) acc cnt =
  match digit_val hex c with
  | Some d => digits hex r ((if hex then 16 else 10) * acc + d)%Z (S cnt)
  | None => (acc, cnt, String c r)
  end.
Proof. reflexivity. Qed.

Lemma digits_digit_string (ds : list Z) (r : string) (acc : Z) (cnt : nat) :
  Forall (fun x => 0 <= x <= 9)%Z ds ->
  digits false (digit_string ds ++ r) acc cnt =
  digits false r (fold_left (fun a d => 10 * a + d)%Z ds acc) (cnt + length ds).
Proof.
  revert acc cnt. induction ds as [|d ds IH]; intros acc cnt H.
  - cbn [digit_string fold_right append fold_left length]. rewrite Nat.add_0_r. reflexivity.
  - inversion H as [|? ? Hd Hds]; subst.
    change (digit_string (d :: ds) ++ r)%string
      with (String (ascii_of_nat (48 + Z.to_nat d)) (digit_string ds ++ r)).
    rewrite digits_cons, (digit_val_digit d Hd), IH by exact Hds.
    cbn [fold_left length]. rewrite Nat.add_succ_r. reflexivity.
Qed.

Lemma digits_value_pos (ds : list Z) (acc : Z) :
  Forall (fun x => 0 <= x <= 9)%Z ds -> (0 <= acc)%Z ->
  (acc <= fold_left (fun a d => 10 * a + d)%Z ds acc)%Z.
Proof.
  revert acc. induction ds as [|d ds IH]; intros acc H Ha; cbn [fold_left]; [lia |].
  inversion H as [|? ? Hd Hds]; subst.
  specialize (IH (10 * acc + d)%Z Hds ltac:(lia)). lia.
Qed.

Lemma z_match_id (v : Z) :
  match v with 0%Z => 0%Z | Z.pos p => Z.pos p | Z.neg p => Z.neg p end = v.
Proof. destruct v; reflexivity. Qed.

Lemma parseInt_digit_string (d : Z) (ds : list Z) (r : string) :
  (1 <= d <= 9)%Z -> Forall (fun x => 0 <= x <= 9)%Z ds -> r = "" \/ r = "m" ->
  parseInt (digit_string (d :: ds) ++ r) = fin (inject_Z (digits_value (d :: ds))).
Proof.
  intros Hd Hds Hr.
  assert (Hdig : forall acc cnt,
            digits false (digit_string ds ++ r) acc cnt =
            (fold_left (fun a d => 10 * a + d)%Z ds acc, (cnt + length ds)%nat, r)).
  { intros acc cnt. rewrite digits_digit_string by exact Hds.
    destruct Hr as [-> | ->]; reflexivity. }
  unfold digits_value. cbn [fold_left].
  assert (Hn : (1 <= Z.to_nat d < 10)%nat) by lia.
  replace d with (Z.of_nat (Z.to_nat d)) by lia.
  generalize dependent (Z.to_nat d). intros n Hn.
  destruct n as [|n]; [lia |].
  do 9 (destruct n as [|n];
        [unfold parseInt; simpl; rewrite Hdig; simpl; rewrite z_match_id; reflexivity |]).
  lia.
Qed.

Lemma capacity_digits (d : Z) (ds : list Z) (r : string) :
  (1 <= d <= 9)%Z -> Forall (fun x => 0 <= x <= 9)%Z ds -> r = "" \/ r = "m" ->
  capacity_cpu_of (digit_string (d :: ds) ++ r) = fin (inject_Z (1000 * digits_value (d :: ds))).
Proof.
  intros Hd Hds Hr. unfold capacity_cpu_of. rewrite (parseInt_digit_string d ds r Hd Hds Hr).
  rewrite mul_fin.
  assert (Hv : (1 <= digits_value (d :: ds))%Z).
  { unfold digits_value. cbn [fold_left]. pose proof (digits_value_pos ds (10 * 0 + d) Hds ltac:(lia)). lia. }
  generalize dependent (digits_value (d :: ds)). intros v Hv.
  assert (E : fin (inject_Z v * 1000) = fin (inject_Z (1000 * v)))
    by (apply fin_eq; unfold Qeq, Qmult, inject_Z; cbn [Qnum Qden]; lia).
  rewrite E. unfold or0, fin.
  destruct (Qeq_bool (Qred (inject_Z (1000 * v))) 0) eqn:Q; [| reflexivity].
  apply Qeq_bool_eq in Q. rewrite Qred_correct in Q. unfold Qeq, inject_Z in Q. cbn [Qnum Qden] in Q. lia.
Qed.

Lemma length_filter_le {A} (f : A -> bool) (l : list A) : (length (filter f l) <= length l)%nat.
Proof. induction l as [|x l IH]; simpl; [lia | destruct (f x); simpl; lia]. Qed.

Lemma phase_filters_le_nat (pods : list pod) :
  (length (filter (fun p => opt_is (p_phase p) "Running") pods) +
   length (filter (fun p => opt_is (p_phase p) "Pending") pods) +
   length (filter (fun p => opt_is (p_phase p) "Failed") pods) +
   length (filter (fun p => opt_is (p_phase p) "Succeeded") pods) +
   length (filter (fun p => opt_is (p_phase p) "Unknown") pods) <= length pods)%nat.
Proof.
  induction pods as [|p ps IH]; cbn [filter length]; [lia |].
  destruct (p_phase p) as [ph|]; cbn [opt_is]; [| lia].
  destruct (String.eqb_spec ph "Running"); destruct (String.eqb_spec ph "Pending");
  destruct (String.eqb_spec ph "Failed"); destruct (String.eqb_spec ph "Succeeded");
  destruct (String.eqb_spec ph "Unknown"); subst; try congruence; cbn [length]; lia.
Qed.

Lemma phase_filters_le (pods : list pod) :
  (count_phase "Running" pods + count_phase "Pending" pods + count_phase "Failed" pods +
   count_phase "Succeeded" pods + count_phase "Unknown" pods <= Z.of_nat (length pods))%Z.
Proof. unfold count_phase. pose proof (phase_filters_le_nat pods). lia. Qed.

Lemma find_none_js {A} (f : A -> option string) (n : string) (l : list A) :
  (forall c, In c l -> f c <> Some n) -> find (fun c => js_eq_opt (f c) (Some n)) l = None.
Proof.
  intro H. destruct (find (fun c => js_eq_opt (f c) (Some n)) l) as [c|] eqn:E; [| reflexivity].
  apply find_some in E as [Hin Hf]. exfalso. apply (H c Hin).
  destruct (f c) as [s|]; [| discriminate]. simpl in Hf. apply String.eqb_eq in Hf. congruence.
Qed.


(** X13 (getClusterMetrics against getNodeMetrics): the cluster CPU usage
    is the sum over the node-metrics items of a per-node value, and when
    every node reports nanocores ("...n") each of these values is exactly
    the millicores getNodeMetrics reports for that node. *)
Theorem X13_cluster_cpu_sums_node_millicores (now : string) (l : list node_metric)
    (pr : metrics_response pod_metric) (nodes : list cluster_node) (pods : list pod) :
  cl_millicores (getClusterMetrics now (Resolves (Some (LArray l))) (Resolves pr) nodes pods) =
  fold_left (fun t nm => add t (cluster_cpu_of (node_cpu_usage nm))) l (fin 0) /\
  (forallb (fun nm => ends_with "n" (node_cpu_usage nm)) l = true ->
   map (fun nm => node_cpu_millicores (node_cpu_usage nm)) l =
   map (fun nm => VNum (cluster_cpu_of (node_cpu_usage nm))) l).
Proof.
  split.
  - cbn [getClusterMetrics cl_millicores]. rewrite ca_cpu_fold. reflexivity.
  - intro H. apply map_ext_in. intros nm Hin. apply node_cpu_consistent.
    rewrite forallb_forall in H. exact (H nm Hin).
Qed.

(** X14 (getClusterMetrics, capacity): a node CPU capacity written as a
    decimal number followed by "m" (millicores, e.g. "3500m") is counted as
    1000 times that number, the same as the plain number of cores. *)
Theorem X14_capacity_millicore_suffix (d : Z) (ds : list Z) :
  (1 <= d <= 9)%Z -> Forall (fun x => 0 <= x <= 9)%Z ds ->
  capacity_cpu_of (digit_string (d :: ds) ++ "m") = fin (inject_Z (1000 * digits_value (d :: ds))) /\
  capacity_cpu_of (digit_string (d :: ds)) = fin (inject_Z (1000 * digits_value (d :: ds))).
Proof.
  intros Hd Hds. split.
  - apply capacity_digits; auto.
  - rewrite <- (str_app_nil (digit_string (d :: ds))). apply capacity_digits; auto.
Qed.

(** X15 (getAllClusters): since [kubeConfig.getContexts()] returns an array,
    which has no [contexts] property, the current cluster is always the one
    named like the first cluster of the kubeconfig (or the only one), for
    any current context. *)
Theorem X15_current_cluster_is_first (now : string) (v : unit) (cc : option string)
    (ctxs : list kcontext) (c0 : kcluster) (rest : list kcluster)
    (nso : option (list namespace)) (no : option (list cluster_node)) (po : option (list pod))
    (nm : fetch (metrics_response node_metric)) (pm : fetch (metrics_response pod_metric)) :
  match getAllClusters now (Returns v) cc (CtxArray ctxs) (c0 :: rest)
          (Returns nso) (Returns no) (Returns po) nm pm with
  | Ok infos =>
      map ci_isCurrent infos =
      map (fun c => js_eq_opt (kc_name c) (kc_name c0) || Nat.eqb (length (c0 :: rest)) 1) (c0 :: rest)
  | Err _ => False
  end.
Proof. cbn [getAllClusters]. rewrite map_map. apply map_ext. intro c. reflexivity. Qed.

(** X16 (getAllClusters, stats): in every cluster record, the current
    cluster's five phase counts add up to at most totalPods and readyNodes
    is at most totalNodes; any other cluster has all-zero stats, no
    namespaces and the fallback metrics. *)
Theorem X16_cluster_stats_bounds (now : string) (version : call unit) (cc : option string)
    (cv : contexts_value) (clusters : list kcluster) (nsR : call (option (list namespace)))
    (nodesR : call (option (list cluster_node))) (podsR : call (option (list pod)))
    (nm : fetch (metrics_response node_metric)) (pm : fetch (metrics_response pod_metric))
    (infos : list cluster_info) :
  getAllClusters now version cc cv clusters nsR nodesR podsR nm pm = Ok infos ->
  Forall (fun ci =>
    if ci_isCurrent ci
    then (phase_sum (ci_stats ci) <= totalPods (ci_stats ci) /\
          readyNodes (ci_stats ci) <= totalNodes (ci_stats ci))%Z
    else ci_stats ci = stats_zero /\ ci_namespaces ci = [] /\ ci_metrics ci = cluster_defaults now)
    infos.
Proof.
  unfold getAllClusters.
  destruct version; [discriminate |]. destruct nsR; [discriminate |].
  destruct nodesR; [discriminate |]. destruct podsR; [discriminate |].
  intro H. injection H as <-. apply Forall_forall. intros ci Hin.
  apply in_map_iff in Hin as (c & <- & _). cbn [ci_isCurrent ci_stats ci_namespaces ci_metrics].
  destruct (_ || _).
  - unfold phase_sum, cluster_stats_of. cbn [runningPods pendingPods failedPods succeededPods
      unknownPods totalPods readyNodes totalNodes].
    split; [apply phase_filters_le |]. pose proof (length_filter_le node_ready (items_or_empty a1)). lia.
  - auto.
Qed.

(** X17 (cluster controller getClusterByName): a name that matches no
    cluster is answered 500 (not 404) with "Failed to fetch cluster n:
    Cluster 'n' not found", and a failure of getAllClusters is answered 500
    with its message wrapped once more. *)
Theorem X17_cluster_lookup_errors_500 (name : string) (cs : list cluster_info) :
  blank_param name = false ->
  ((forall c, In c cs -> ci_name c <> Some (trim name)) ->
   clusterByName_controller name (Ok cs) =
   respond 500 (RError ("Failed to fetch cluster " ++ trim name ++ ": Cluster '" ++ trim name ++
                        "' not found"))) /\
  (forall m, clusterByName_controller name (Err m) =
   respond 500 (RError ("Failed to fetch cluster " ++ trim name ++ ": " ++ m))).
Proof.
  intro Hb. unfold clusterByName_controller, getClusterByName. rewrite Hb, (valid_name_trim name Hb).
  split.
  - intro Hc. rewrite (find_none_js ci_name (trim name) cs Hc). reflexivity.
  - intro m. reflexivity.
Qed.

(** ** Deployment log socket, label selector and container resolution *)

Lemma split_on_no_char (c : ascii) (s : string) : no_char c s = true -> split_on c s = [s].
Proof.
  induction s as [|d s IH]; simpl; intro H; [reflexivity |].
  apply andb_prop in H as [Hd H]. rewrite IH by exact H.
  destruct (Ascii.eqb d c); [discriminate | reflexivity].
Qed.

Lemma no_char_app (c : ascii) (a b : string) :
  no_char c (a ++ b) = no_char c a && no_char c b.
Proof. induction a as [|d a IH]; simpl; [reflexivity |]. rewrite IH, andb_assoc. reflexivity. Qed.

Lemma split_on_concat (c : ascii) (xs : list string) :
  xs <> [] -> Forall (fun x => no_char c x = true) xs ->
  split_on c (String.concat (String c "") xs) = xs.
Proof.
  induction xs as [|x xs IH]; intros Hne H; [congruence |].
  inversion H as [|? ? Hx Hxs]; subst.
  destruct xs as [|y ys].
  - apply split_on_no_char. exact Hx.
  - change (String.concat (String c "") (x :: y :: ys))
      with (x ++ String c (String.concat (String c "") (y :: ys)))%string.
    rewrite split_on_app by exact Hx. rewrite IH by (discriminate || exact Hxs). reflexivity.
Qed.


(** X19 (streamDeploymentLogs): with no pods the socket is closed with 1011
    "Error setting up log stream: No pods found for deployment ..." (when it
    is open) and nothing is asked of the cluster; otherwise the logs of the
    first container of the first pod are opened directly when that
    container has a name. *)
Theorem X19_deployment_stream_first_container (w : world) (dn : arg) (p : pod) (ps : list pod)
    (c : container) (cs : list container) :
  (remote (sw (streamDeploymentLogs w dn (Ok []))) = remote w /\
   ph (streamDeploymentLogs w dn (Ok [])) = Finished /\
   calls (sw (streamDeploymentLogs w dn (Ok []))) =
   (if rs_eqb (ws w) OPEN
    then (calls w ++ [(ws w, WsClose (Some 1011%Z)
                         (Some ("Error setting up log stream: No pods found for deployment " ++
                                show_arg dn)%string))])%list
    else calls w)) /\
  (p_containers p = Some (c :: cs) -> truthy_opt (c_name c) = true ->
   remote (sw (streamDeploymentLogs w dn (Ok (p :: ps)))) = (remote w ++ [LogOpen (c_name c)])%list /\
   ph (streamDeploymentLogs w dn (Ok (p :: ps))) = LogRelay).
Proof.
  split.
  - cbn [streamDeploymentLogs finished sw ph]. split; [apply close_1011_remote |]. split; [reflexivity |].
    unfold close_1011, when_open. destruct (rs_eqb (ws w) OPEN); reflexivity.
  - intros Hc Ht. unfold streamDeploymentLogs. rewrite Hc. unfold start_logs. rewrite Ht.
    split; reflexivity.
Qed.

(** X20 (labelSelector): for a non-empty [matchLabels] in which no label
    key or value contains ',' or '=', the selector string splits back, at
    ',' and then at '=', into exactly the [matchLabels] pairs, in order; for
    an empty [matchLabels] the selector is "", which splits back to [[""]]
    rather than to no pair. *)
Theorem X20_label_selector_roundtrip :
  (forall labels : list (string * string),
   labels <> [] ->
   Forall (fun kv => no_char ","%char (fst kv) && no_char "="%char (fst kv) &&
                     no_char ","%char (snd kv) && no_char "="%char (snd kv) = true) labels ->
   selector_entries (labelSelector labels) = map (fun kv => [fst kv; snd kv]) labels) /\
  selector_entries (labelSelector []) = [[""]].
Proof.
  split; [| reflexivity].
  intros labels Hne H. unfold selector_entries, labelSelector.
  rewrite Forall_forall in H.
  rewrite split_on_concat.
  - rewrite map_map. apply map_ext_in. intros [k v] Hin. specialize (H _ Hin).
    cbn [fst snd] in H |- *.
    apply andb_prop in H as [H Hv2]. apply andb_prop in H as [H _].
    apply andb_prop in H as [_ Hk2].
    change (k ++ "=" ++ v)%string with (k ++ String "=" v)%string.
    rewrite split_on_app by exact Hk2. rewrite split_on_no_char by exact Hv2. reflexivity.
  - destruct labels; [congruence | discriminate].
  - apply Forall_forall. intros x Hx. apply in_map_iff in Hx as ([k v] & <- & Hin).
    specialize (H _ Hin). cbn [fst snd] in H |- *.
    apply andb_prop in H as [H _]. apply andb_prop in H as [H Hv1].
    apply andb_prop in H as [Hk1 _].
    rewrite !no_char_app, Hk1, Hv1. reflexivity.
Qed.

(** X21 (getPodLogs, connectToPodTerminal, streamPodLogs): without an
    explicit container, all three read the pod and use the first container
    its spec declares; getPodLogs rejects with "No containers found in pod:
    ..." when the spec declares none. *)
Theorem X21_first_declared_container (w : world) (pn : string) (sh : option string)
    (c : container) (cs : list container) (readLog : option string -> fetch string) :
  getPodLogs pn None (Resolves (pod_resp_of (c :: cs))) readLog = readLog (c_name c) /\
  remote (sw (step (start_terminal w pn None sh) (EvReadDone (Resolves (pod_resp_of (c :: cs)))))) =
  (remote w ++ [ReadPod pn; ExecOpen (c_name c) (if truthy_opt sh then [show_opt sh] else ["/bin/sh"])])%list /\
  remote (sw (step (start_logs w pn None) (EvReadDone (Resolves (pod_resp_of (c :: cs)))))) =
  (remote w ++ [ReadPod pn; LogOpen (c_name c)])%list /\
  getPodLogs pn None (Resolves (pod_resp_of [])) readLog = Rejects ("No containers found in pod: " ++ pn).
Proof.
  split; [reflexivity |]. split; [| split; [| reflexivity]].
  - transitivity ((remote w ++ [ReadPod pn]) ++
                  [ExecOpen (c_name c) (if truthy_opt sh then [show_opt sh] else ["/bin/sh"])])%list;
      [reflexivity | rewrite <- app_assoc; reflexivity].
  - transitivity ((remote w ++ [ReadPod pn]) ++ [LogOpen (c_name c)])%list;
      [reflexivity | rewrite <- app_assoc; reflexivity].
Qed.

(** ** Witnesses: the hypotheses of the properties above hold on concrete inputs *)

Lemma X4_witness :
  exists d outs o,
    nodeByName_controller " node-a " (fun _ => Returns {| n_name := Some "node-a" |}) (Resolves None)
      (Resolves (LArray [{| p_name := Some "web"; p_namespace := Some "default";
                            p_phase := Some "Running"; p_conditions := None;
                            p_nodeName := Some "node-a"; p_containers := None |}])) =
      respond 200 (RData d) /\
    getAllNodes (Returns (LArray [{| n_name := Some "node-a" |}])) (Resolves None)
      (Resolves (LArray [{| p_name := Some "web"; p_namespace := Some "default";
                            p_phase := Some "Running"; p_conditions := None;
                            p_nodeName := Some "node-a"; p_containers := None |}])) = Ok outs /\
    In o outs /\ no_pods o = PCounts (nd_pods d).
Proof.
  do 3 eexists. split; [reflexivity |]. split; [reflexivity |]. split; [left; reflexivity |].
  apply X4_node_detail_pods_match_listing with (name := " node-a ")
    (readNode := fun _ => Returns {| n_name := Some "node-a" |}) (metrics := Resolves None)
    (pods := Resolves (LArray [{| p_name := Some "web"; p_namespace := Some "default";
                                  p_phase := Some "Running"; p_conditions := None;
                                  p_nodeName := Some "node-a"; p_containers := None |}]))
    (listing := Returns (LArray [{| n_name := Some "node-a" |}]))
    (outs := [{| no_name := Some "node-a"; no_pods := PCounts {| total := 1; running := 1; pending := 0;
                 failed := 0; succeeded := 0 |}; no_metrics := NMNull |}]);
    try reflexivity. left; reflexivity.
Defined.

Lemma X5_witness :
  nso_pods {| nso_name := Some "default"; nso_status := "Active";
              nso_pods := PCounts {| total := 1; running := 1; pending := 0; failed := 0; succeeded := 0 |} |} =
  PCounts (nsd_pods {| nsd_name := Some "default"; nsd_status := "Active";
              nsd_pods := {| total := 1; running := 1; pending := 0; failed := 0; succeeded := 0 |} |}).
Proof.
  apply (X5_namespace_detail_pods_match_listing "default"
    (fun _ => Returns {| ns_name := Some "default"; ns_phase := Some "Active" |})
    (fun _ => Resolves (LArray (filter (fun p => opt_is (p_namespace p) "default")
       [{| p_name := Some "web"; p_namespace := Some "default"; p_phase := Some "Running";
           p_conditions := None; p_nodeName := Some "node-a"; p_containers := None |};
        {| p_name := Some "db"; p_namespace := Some "data"; p_phase := Some "Pending";
           p_conditions := None; p_nodeName := Some "node-a"; p_containers := None |}])))
    [{| p_name := Some "web"; p_namespace := Some "default"; p_phase := Some "Running";
        p_conditions := None; p_nodeName := Some "node-a"; p_containers := None |};
     {| p_name := Some "db"; p_namespace := Some "data"; p_phase := Some "Pending";
        p_conditions := None; p_nodeName := Some "node-a"; p_containers := None |}]
    _ (Returns (LArray [{| ns_name := Some "default"; ns_phase := Some "Active" |};
                         {| ns_name := Some "data"; ns_phase := Some "Active" |}]))
    [{| nso_name := Some "default"; nso_status := "Active";
        nso_pods := PCounts {| total := 1; running := 1; pending := 0; failed := 0; succeeded := 0 |} |};
     {| nso_name := Some "data"; nso_status := "Active";
        nso_pods := PCounts {| total := 1; running := 0; pending := 1; failed := 0; succeeded := 0 |} |}]);
    try reflexivity. left; reflexivity.
Defined.

Lemma X6_witness :
  nodeByName_controller "node-a"
    (fun _ => Fails {| e_code := None; e_statusCode := Some 404%Z; e_message := "not found" |})
    (Resolves None) (Resolves (LArray [])) =
  respond 500 (RError "Node 'node-a' not found in the cluster").
Proof.
  rewrite (X6_node_controller_errors_500 "node-a"
    (fun _ => Fails {| e_code := None; e_statusCode := Some 404%Z; e_message := "not found" |})
    (Resolves None) (Resolves (LArray []))
    {| e_code := None; e_statusCode := Some 404%Z; e_message := "not found" |} eq_refl eq_refl).
  reflexivity.
Defined.

Lemma X7_witness :
  namespaceByName_controller "default"
    (fun _ => Fails {| e_code := Some "ECONNREFUSED"; e_statusCode := None;
                       e_message := "connect ECONNREFUSED 127.0.0.1:6443" |})
    (fun _ => Resolves (LArray [])) = respond 502 (RError cannot_connect) /\
  namespaceByName_controller "missing"
    (fun _ => Fails {| e_code := None; e_statusCode := Some 404%Z; e_message := "not found" |})
    (fun _ => Resolves (LArray [])) =
  respond 404 (RError "Namespace 'missing' not found in the cluster").
Proof.
  split.
  - apply (proj2 (X7_namespace_controller_status "default"
      (fun _ => Fails {| e_code := Some "ECONNREFUSED"; e_statusCode := None;
                         e_message := "connect ECONNREFUSED 127.0.0.1:6443" |})
      (fun _ => Resolves (LArray []))
      {| e_code := Some "ECONNREFUSED"; e_statusCode := None;
         e_message := "connect ECONNREFUSED 127.0.0.1:6443" |} eq_refl eq_refl));
      reflexivity.
  - apply (proj1 (X7_namespace_controller_status "missing"
      (fun _ => Fails {| e_code := None; e_statusCode := Some 404%Z; e_message := "not found" |})
      (fun _ => Resolves (LArray []))
      {| e_code := None; e_statusCode := Some 404%Z; e_message := "not found" |} eq_refl eq_refl));
      reflexivity.
Defined.

Lemma X8_witness :
  podByName_controller " web " AUndef
    (fun _ _ => Returns {| p_name := Some "web"; p_namespace := Some "default"; p_phase := Some "Running";
                           p_conditions := None; p_nodeName := Some "node-a"; p_containers := None |})
    (Resolves None) =
  respond 200 (RData (transformPodData
    {| p_name := Some "web"; p_namespace := Some "default"; p_phase := Some "Running";
       p_conditions := None; p_nodeName := Some "node-a"; p_containers := None |}
    (getPodMetrics (Resolves None)))).
Proof.
  apply (X8_pod_detail_matches_listing_entry " web " AUndef "default"
    (fun _ _ => Returns {| p_name := Some "web"; p_namespace := Some "default"; p_phase := Some "Running";
                           p_conditions := None; p_nodeName := Some "node-a"; p_containers := None |})
    (Resolves None)
    {| p_name := Some "web"; p_namespace := Some "default"; p_phase := Some "Running";
       p_conditions := None; p_nodeName := Some "node-a"; p_containers := None |});
    reflexivity.
Defined.

Lemma X9_witness :
  podByName_controller "web" AUndef
    (fun _ _ => Fails {| e_code := None; e_statusCode := Some 404%Z; e_message := "not found" |})
    (Resolves None) =
  respond 404 (RError "Pod 'web' not found in namespace 'default'").
Proof.
  apply (proj1 (X9_pod_controller_status "web" AUndef "default"
    (fun _ _ => Fails {| e_code := None; e_statusCode := Some 404%Z; e_message := "not found" |})
    (Resolves None) {| e_code := None; e_statusCode := Some 404%Z; e_message := "not found" |}
    eq_refl eq_refl eq_refl) eq_refl).
Defined.

Lemma X10_witness :
  getAllNodeMetrics (Returns (Some (LArray
    [{| nm_name := Some "node-a"; nm_timestamp := None; nm_window := None;
        nm_usage := Some {| u_cpu := Some "250000000n"; u_memory := Some "1024Ki" |} |}]))) =
  Ok (map metrics_entry
    [{| nm_name := Some "node-a"; nm_timestamp := None; nm_window := None;
        nm_usage := Some {| u_cpu := Some "250000000n"; u_memory := Some "1024Ki" |} |}]) /\
  own "node-a" (getNodeMetrics (Resolves (Some (LArray
    [{| nm_name := Some "node-a"; nm_timestamp := None; nm_window := None;
        nm_usage := Some {| u_cpu := Some "250000000n"; u_memory := Some "1024Ki" |} |}])))) =
  last_entry_for "node-a" (map metrics_entry
    [{| nm_name := Some "node-a"; nm_timestamp := None; nm_window := None;
        nm_usage := Some {| u_cpu := Some "250000000n"; u_memory := Some "1024Ki" |} |}]).
Proof. apply X10_node_metrics_views_agree. reflexivity. Defined.

Lemma X11_witness :
  allNodeMetrics_controller (Fails {| e_code := None; e_statusCode := Some 404%Z; e_message := "not found" |}) =
  respond 503 (RError "Metrics server is not available in the cluster. Please install metrics-server.").
Proof.
  apply (proj1 (proj2 (X11_node_metrics_controller_status
    {| e_code := None; e_statusCode := Some 404%Z; e_message := "not found" |})));
    reflexivity.
Defined.


Lemma X13_witness :
  map (fun nm => node_cpu_millicores (node_cpu_usage nm))
    [{| nm_name := Some "node-a"; nm_timestamp := None; nm_window := None;
        nm_usage := Some {| u_cpu := Some "250000000n"; u_memory := Some "1024Ki" |} |}] =
  map (fun nm => VNum (cluster_cpu_of (node_cpu_usage nm)))
    [{| nm_name := Some "node-a"; nm_timestamp := None; nm_window := None;
        nm_usage := Some {| u_cpu := Some "250000000n"; u_memory := Some "1024Ki" |} |}].
Proof.
  apply (proj2 (X13_cluster_cpu_sums_node_millicores "2024-01-01T00:00:00Z"
    [{| nm_name := Some "node-a"; nm_timestamp := None; nm_window := None;
        nm_usage := Some {| u_cpu := Some "250000000n"; u_memory := Some "1024Ki" |} |}]
    None [] [])).
  reflexivity.
Defined.

Lemma X14_witness :
  capacity_cpu_of "3500m" = fin (inject_Z 3500000) /\ capacity_cpu_of "3500" = fin (inject_Z 3500000).
Proof.
  apply (X14_capacity_millicore_suffix 3 [5; 0; 0]%Z).
  - lia.
  - repeat constructor; lia.
Defined.

Lemma X16_witness :
  Forall (fun ci =>
    if ci_isCurrent ci
    then (phase_sum (ci_stats ci) <= totalPods (ci_stats ci) /\
          readyNodes (ci_stats ci) <= totalNodes (ci_stats ci))%Z
    else ci_stats ci = stats_zero /\ ci_namespaces ci = [] /\
         ci_metrics ci = cluster_defaults "2024-01-01T00:00:00Z")
  (match getAllClusters "2024-01-01T00:00:00Z" (Returns tt) (Some "dev") (CtxArray [])
           [{| kc_name := Some "dev"; kc_server := Some "https://127.0.0.1:6443" |};
            {| kc_name := Some "prod"; kc_server := Some "https://10.0.0.1:6443" |}]
           (Returns (Some [{| ns_name := Some "default"; ns_phase := Some "Active" |}]))
           (Returns (Some [{| kn_capacity_cpu := Some "4"; kn_capacity_memory := Some "8Gi";
                              kn_conditions := None |}]))
           (Returns (Some [{| p_name := Some "web"; p_namespace := Some "default";
                              p_phase := Some "Running"; p_conditions := None;
                              p_nodeName := Some "node-a"; p_containers := None |}]))
           (Resolves None) (Resolves None) with
   | Ok infos => infos
   | Err _ => []
   end).
Proof. apply X16_cluster_stats_bounds with (cc := Some "dev") (cv := CtxArray []) (version := Returns tt)
    (nsR := Returns (Some [{| ns_name := Some "default"; ns_phase := Some "Active" |}]))
    (nodesR := Returns (Some [{| kn_capacity_cpu := Some "4"; kn_capacity_memory := Some "8Gi";
                                 kn_conditions := None |}]))
    (podsR := Returns (Some [{| p_name := Some "web"; p_namespace := Some "default";
                                p_phase := Some "Running"; p_conditions := None;
                                p_nodeName := Some "node-a"; p_containers := None |}]))
    (clusters := [{| kc_name := Some "dev"; kc_server := Some "https://127.0.0.1:6443" |};
                  {| kc_name := Some "prod"; kc_server := Some "https://10.0.0.1:6443" |}])
    (nm := Resolves None) (pm := Resolves None).
  reflexivity.
Defined.

Lemma X17_witness :
  clusterByName_controller "prod"
    (Ok [{| ci_name := Some "dev"; ci_isCurrent := true; ci_context := "dev";
            ci_stats := stats_zero; ci_metrics := cluster_defaults "2024-01-01T00:00:00Z";
            ci_namespaces := [] |}]) =
  respond 500 (RError "Failed to fetch cluster prod: Cluster 'prod' not found").
Proof.
  apply (proj1 (X17_cluster_lookup_errors_500 "prod"
    [{| ci_name := Some "dev"; ci_isCurrent := true; ci_context := "dev";
        ci_stats := stats_zero; ci_metrics := cluster_defaults "2024-01-01T00:00:00Z";
        ci_namespaces := [] |}] eq_refl)).
  intros c [<- | []]. discriminate.
Defined.


Lemma X19_witness :
  remote (sw (streamDeploymentLogs
    {| ws := OPEN; calls := []; remote := []; stdin_writable := false; stdout_readable := false;
       stderr_readable := false |} (AStr "web")
    (Ok [{| p_name := Some "web-1"; p_namespace := Some "default"; p_phase := Some "Running";
            p_conditions := None; p_nodeName := Some "node-a";
            p_containers := Some [{| c_name := Some "app"; c_resources := None |}] |}]))) =
  [LogOpen (Some "app")] /\
  ph (streamDeploymentLogs
    {| ws := OPEN; calls := []; remote := []; stdin_writable := false; stdout_readable := false;
       stderr_readable := false |} (AStr "web")
    (Ok [{| p_name := Some "web-1"; p_namespace := Some "default"; p_phase := Some "Running";
            p_conditions := None; p_nodeName := Some "node-a";
            p_containers := Some [{| c_name := Some "app"; c_resources := None |}] |}])) = LogRelay.
Proof.
  apply (proj2 (X19_deployment_stream_first_container
    {| ws := OPEN; calls := []; remote := []; stdin_writable := false; stdout_readable := false;
       stderr_readable := false |} (AStr "web")
    {| p_name := Some "web-1"; p_namespace := Some "default"; p_phase := Some "Running";
       p_conditions := None; p_nodeName := Some "node-a";
       p_containers := Some [{| c_name := Some "app"; c_resources := None |}] |} []
    {| c_name := Some "app"; c_resources := None |} []) eq_refl eq_refl).
Defined.

Lemma X20_witness :
  selector_entries (labelSelector [("app", "web"); ("tier", "db")]) = [["app"; "web"]; ["tier"; "db"]].
Proof.
  apply (proj1 X20_label_selector_roundtrip [("app", "web"); ("tier", "db")]).
  - discriminate.
  - repeat constructor.
Defined.
